(** * Seaward SSS portable-appliance-test decoder: a shallow embedding

    The development follows [portableappliancetest.py].  Python objects are
    modelled as follows.

    - [bytes] is [list byte]; an [int] is [Z]; a [float] is the kernel's
      binary64 [float]; a [str] is kept as the UTF-8 text it was decoded from.
    - An [OrderedDict] is an association list in insertion order.
    - The two type registries and the user-data mapping are finite maps.
    - Exceptions are values of [exn]; code that can raise returns [res].
    - The function attributes [parse_record.test_id], [report_record.user_notes]
      and [report_record.user_counts] live for the whole process: they form
      the record [statics], threaded through every call together with the
      log of the calls made on the output workbook.
    - [logging] calls have no influence on decoding and are left out. *)

From Stdlib Require Import ZArith List String Ascii Strings.Byte Bool Lia.
From Stdlib Require Import PrimFloat Uint63 DecimalString.
From stdpp Require Import base option list gmap strings.

Open Scope Z_scope.

(** ** Python values and exceptions *)

Inductive exn : Type :=
| struct_error            (* struct.error: buffer of the wrong size *)
| KeyError (k : Z)        (* dict lookup on a missing key *)
| KeyErrorName (k : string)
| UnicodeDecodeError
| ValueError              (* datetime.datetime out of range *)
| TypeError
| IndexError.

Inductive res (A : Type) : Type :=
| Ok (a : A)
| Raise (e : exn).
Arguments Ok {A} a.
Arguments Raise {A} e.

Definition res_bind {A B} (r : res A) (k : A -> res B) : res B :=
  match r with
  | Ok a => k a
  | Raise e => Raise e
  end.

Inductive value : Type :=
| VInt (z : Z)
| VFloat (f : float)
| VStr (s : string)
| VBytes (b : list byte)
| VBool (b : bool)
| VDatetime (year month day hour minute : Z).

Definition byte_val (b : byte) : Z := Z.of_N (Byte.to_N b).

(** ** OrderedDict *)

Definition odict : Type := list (string * value).

Fixpoint od_get (k : string) (d : odict) : option value :=
  match d with
  | [] => None
  | (k', v) :: d' => if String.eqb k k' then Some v else od_get k d'
  end.

(** [d[k] = v]: an existing key keeps its position, a new key goes last. *)
Fixpoint od_set (k : string) (v : value) (d : odict) : odict :=
  match d with
  | [] => [(k, v)]
  | (k', v') :: d' =>
      if String.eqb k k' then (k, v) :: d' else (k', v') :: od_set k v d'
  end.

Definition od_values (d : odict) : list value := map snd d.

Definition od_getitem (k : string) (d : odict) : res value :=
  match od_get k d with
  | Some v => Ok v
  | None => Raise (KeyErrorName k)
  end.

(** ** struct: format strings and unpacking (big-endian, no padding) *)

Inductive format_type : Type := int | str.

Definition field : Type := string * format_type * nat.

Inductive fmt : Type :=
| fmt_B | fmt_H | fmt_L | fmt_I
| fmt_s (n : nat).

Definition fmt_size (c : fmt) : nat :=
  match c with
  | fmt_B => 1
  | fmt_H => 2
  | fmt_L => 4
  | fmt_I => 4
  | fmt_s n => n
  end.

Definition calcsize (fs : list fmt) : nat :=
  foldr (fun c n => (fmt_size c + n)%nat) 0%nat fs.

(** Big-endian unsigned integer of a byte run. *)
Definition be_int (bs : list byte) : Z :=
  fold_left (fun acc b => 256 * acc + byte_val b) bs 0.

Fixpoint struct_items (fs : list fmt) (buf : list byte) : list value :=
  match fs with
  | [] => []
  | c :: fs' =>
      let item := take (fmt_size c) buf in
      let v := match c with
               | fmt_s _ => VBytes item
               | _ => VInt (be_int item)
               end in
      v :: struct_items fs' (drop (fmt_size c) buf)
  end.

Definition struct_unpack (fs : list fmt) (buf : list byte) : res (list value) :=
  if Nat.eqb (length buf) (calcsize fs) then Ok (struct_items fs buf)
  else Raise struct_error.

(** ** Sdb *)

Definition field_fmt (f : field) : fmt :=
  match f with
  | (_, int, 1%nat) => fmt_B
  | (_, int, 2%nat) => fmt_H
  | (_, int, 4%nat) => fmt_L
  | (_, str, size) => fmt_s size
  | (_, int, _) => fmt_I           (* field_pack_format[int] *)
  end.

Definition build_format_string (fields : list field) : list fmt :=
  map field_fmt fields.

Definition required_length (fields : list field) : nat :=
  calcsize (build_format_string fields).

(** [b.replace(b'\x00', b'')] *)
Definition strip_nul (b : list byte) : list byte :=
  filter (fun c => byte_val c <> 0) b.

(** ASCII whitespace, as [bytes.rstrip()] understands it. *)
Definition is_space (c : byte) : bool :=
  let n := byte_val c in
  (n =? 32) || ((9 <=? n) && (n <=? 13)).

Fixpoint rstrip (b : list byte) : list byte :=
  match b with
  | [] => []
  | c :: b' =>
      match rstrip b' with
      | [] => if is_space c then [] else [c]
      | t => c :: t
      end
  end.

(** Strict UTF-8: no overlong forms, no surrogates, nothing above U+10FFFF. *)
Definition in_range (lo hi n : Z) : bool := (lo <=? n) && (n <=? hi).

Fixpoint utf8_valid (l : list Z) : bool :=
  match l with
  | [] => true
  | b0 :: t =>
      if b0 <=? 0x7f then utf8_valid t
      else if in_range 0xc2 0xdf b0 then
        match t with
        | b1 :: t1 => in_range 0x80 0xbf b1 && utf8_valid t1
        | _ => false
        end
      else if in_range 0xe0 0xef b0 then
        match t with
        | b1 :: b2 :: t2 =>
            in_range (if b0 =? 0xe0 then 0xa0 else 0x80)
                     (if b0 =? 0xed then 0x9f else 0xbf) b1
            && in_range 0x80 0xbf b2 && utf8_valid t2
        | _ => false
        end
      else if in_range 0xf0 0xf4 b0 then
        match t with
        | b1 :: b2 :: b3 :: t3 =>
            in_range (if b0 =? 0xf0 then 0x90 else 0x80)
                     (if b0 =? 0xf4 then 0x8f else 0xbf) b1
            && in_range 0x80 0xbf b2 && in_range 0x80 0xbf b3 && utf8_valid t3
        | _ => false
        end
      else false
  end.

(** [b.decode('utf-8')] *)
Definition utf8_decode (b : list byte) : res string :=
  if utf8_valid (map byte_val b) then Ok (string_of_list_byte b)
  else Raise UnicodeDecodeError.

(** The loop of [Sdb.unpack]: one unpacked item per field, in order. *)
Fixpoint assign_fields (fields : list field) (unpacked : list value)
    (data : odict) : res odict :=
  match fields with
  | [] => Ok data
  | (name, format_type, _) :: fields' =>
      match unpacked with
      | [] => Raise IndexError
      | u :: unpacked' =>
          match format_type with
          | str =>
              match u with
              | VBytes b =>
                  res_bind (utf8_decode (rstrip (strip_nul b))) (fun s =>
                  assign_fields fields' unpacked' (od_set name (VStr s) data))
              | _ => Raise TypeError
              end
          | int => assign_fields fields' unpacked' (od_set name u data)
          end
      end
  end.

(** [Sdb.unpack] writes the unpacked items into [self.data], the dictionary
    the object has kept from its earlier calls. *)
Definition Sdb_unpack_into (data : odict) (fields : list field)
    (structure : list byte) : res odict :=
  res_bind (struct_unpack (build_format_string fields) structure) (fun unpacked =>
  assign_fields fields unpacked data).

(** [Sdb.unpack] on an object just made, whose dictionary is still empty:
    [parse_record] makes a new object for every sub-record. *)
Definition Sdb_unpack (fields : list field) (structure : list byte) : res odict :=
  Sdb_unpack_into [] fields structure.

(** ** SSS: the stream format's sub-record classes *)

Definition Z_to_float (z : Z) : float := PrimFloat.of_uint63 (Uint63.of_Z z).

(** [10 ** n]: an [int] for [n >= 0], a [float] for a negative exponent.
    The float power is modelled by the correctly rounded quotient
    [1 / 10**(-n)]; for the exponents -1, -2, -3 that a 16-bit field can
    give it is the binary64 value of the literals 0.1, 0.01, 0.001. *)
Definition py_pow10 (n : Z) : value :=
  if 0 <=? n then VInt (10 ^ n)
  else VFloat (PrimFloat.div 1 (Z_to_float (10 ^ (- n)))).

(** [a * b] on numbers; an [int] operand of a [float] product is converted. *)
Definition py_mul (a b : value) : res value :=
  match a, b with
  | VInt x, VInt y => Ok (VInt (x * y))
  | VFloat x, VInt y => Ok (VFloat (PrimFloat.mul x (Z_to_float y)))
  | VInt x, VFloat y => Ok (VFloat (PrimFloat.mul (Z_to_float x) y))
  | VFloat x, VFloat y => Ok (VFloat (PrimFloat.mul x y))
  | _, _ => Raise TypeError
  end.

(** [(10**-(v >> 14)) * (v & 0x3fff)] *)
Definition rescale_value (v : Z) : res value :=
  py_mul (py_pow10 (- (Z.shiftr v 14))) (VInt (Z.land v 0x3fff)).

Definition rescale (key : string) (data : odict) : res odict :=
  res_bind (od_getitem key data) (fun x =>
  match x with
  | VInt v => res_bind (rescale_value v) (fun y => Ok (od_set key y data))
  | _ => Raise TypeError
  end).

(** [x == 1] *)
Definition py_eq_one (x : value) : bool :=
  match x with
  | VInt z => z =? 1
  | VFloat f => PrimFloat.eqb f 1
  | VBool b => b
  | _ => false
  end.

(** [x == 0.0] *)
Definition py_eq_zero (x : value) : bool :=
  match x with
  | VInt z => z =? 0
  | VFloat f => PrimFloat.eqb f 0
  | VBool b => negb b
  | _ => false
  end.

(** [bool(x)] *)
Definition py_bool (x : value) : bool :=
  match x with
  | VInt z => negb (z =? 0)
  | VFloat f => negb (PrimFloat.eqb f 0)
  | VStr s => negb (String.eqb s "")
  | VBytes b => negb (Nat.eqb (length b) 0)
  | VBool b => b
  | VDatetime _ _ _ _ _ => true
  end.

Definition passed (key : string) (data : odict) : res odict :=
  res_bind (od_getitem key data) (fun x =>
  Ok (od_set key (VBool (py_eq_one x)) data)).

Inductive sss_class : Type :=
| SSSRecordHeader
| SSSVisualTest
| SSSNoDataTest
| SSSEarthResistanceTest
| SSSEarthResistanceTestv2
| SSSEarthInsulationTest
| SSSCurrentTest
| SSSCurrentTestv2
| SSSEarthInsulationTestv2
| SSSPowerLeakTest
| SSSPowerLeakTestv2
| SSSContinuityTest
| SSSContinuityTestv2
| SSSUserDataMappingTest
| SSSRetestTest
| SSSSoftwareVersionTest
| SSSUserDataTest.

Definition fields (c : sss_class) : list field :=
  match c with
  | SSSRecordHeader =>
      [("payload_length", int, 2); ("nulls", int, 2); ("checksum_header", int, 2)]
  | SSSVisualTest =>
      [("id", str, 16); ("hour", int, 1); ("minute", int, 1); ("day", int, 1);
       ("month", int, 1); ("year", int, 2); ("site", str, 16);
       ("location", str, 16); ("tester", str, 11); ("testcode1", str, 10);
       ("testcode2", str, 11)]
  | SSSNoDataTest => []
  | SSSEarthResistanceTest => [("resistance", int, 2)]
  | SSSEarthResistanceTestv2 =>
      [("current", int, 1); ("pass", int, 1); ("resistance", int, 2)]
  | SSSEarthInsulationTest => [("resistance", int, 2)]
  | SSSCurrentTest => [("current", int, 2)]
  | SSSCurrentTestv2 => [("pass", int, 1); ("current", int, 2)]
  | SSSEarthInsulationTestv2 => [("pass", int, 1); ("resistance", int, 2)]
  | SSSPowerLeakTest => [("leakage", int, 2); ("load", int, 2)]
  | SSSPowerLeakTestv2 => [("pass", int, 1); ("leakage", int, 2); ("load", int, 2)]
  | SSSContinuityTest => [("resistance", int, 2)]
  | SSSContinuityTestv2 => [("pass", int, 1); ("resistance", int, 2)]
  | SSSUserDataMappingTest =>
      [("mapping1", int, 1); ("mapping2", int, 1); ("mapping3", int, 1);
       ("mapping4", int, 1)]
  | SSSRetestTest => [("nulls", int, 1); ("unknown", int, 1); ("frequency", int, 1)]
  | SSSSoftwareVersionTest =>
      [("serialnumber", str, 11); ("firmware1", int, 1); ("firmware2", int, 1);
       ("firmware3", int, 1)]
  | SSSUserDataTest =>
      [("line1", str, 21); ("line2", str, 21); ("line3", str, 21); ("line4", str, 21)]
  end%nat.

(** [SSSUserDataMappingTest.mappings] *)
Definition mappings : gmap Z string :=
  list_to_map [(0, "Notes"); (1, "Asset Description"); (2, "Asset Group");
               (3, "Make"); (4, "Model"); (5, "Serial No.")]%string.

(** [key[-1]] *)
Definition last_char (key : string) : res string :=
  match String.length key with
  | O => Raise IndexError
  | S n => Ok (substring n 1 key)
  end.

(** The loop of [SSSUserDataMappingTest.fixup] over the snapshot
    [list(self.data.items())]. *)
Fixpoint mapping_fixup (items : list (string * value)) (data : odict) : res odict :=
  match items with
  | [] => Ok data
  | (key, v) :: items' =>
      match v with
      | VInt n =>
          match mappings !! n with
          | Some meaning =>
              res_bind (last_char key) (fun c =>
              mapping_fixup items' (od_set ("meaning" ++ c) (VStr meaning) data))
          | None => Raise (KeyError n)
          end
      | _ => Raise TypeError
      end
  end.

(** The sentinel of the continuity tests. *)
Definition no_result (key : string) (data : odict) : res odict :=
  res_bind (od_getitem key data) (fun x =>
  if py_eq_zero x then Ok (od_set key (VStr "(no result)") data) else Ok data).

Definition fixup (c : sss_class) (data : odict) : res odict :=
  match c with
  | SSSEarthResistanceTest => rescale "resistance" data
  | SSSEarthResistanceTestv2 =>
      res_bind (rescale "resistance" data) (passed "pass")
  | SSSEarthInsulationTest => rescale "resistance" data
  | SSSCurrentTest => rescale "current" data
  | SSSCurrentTestv2 => res_bind (rescale "current" data) (passed "pass")
  | SSSEarthInsulationTestv2 =>
      res_bind (rescale "resistance" data) (passed "pass")
  | SSSPowerLeakTest => res_bind (rescale "leakage" data) (rescale "load")
  | SSSPowerLeakTestv2 =>
      res_bind (od_getitem "pass" data) (fun p =>
      res_bind (rescale "leakage" (od_set "pass" (VBool (py_bool p)) data))
               (rescale "load"))
  | SSSContinuityTest =>
      res_bind (rescale "resistance" data) (no_result "resistance")
  | SSSContinuityTestv2 =>
      res_bind (rescale "resistance" data) (fun d =>
      res_bind (passed "pass" d) (no_result "resistance"))
  | SSSUserDataMappingTest => mapping_fixup data data
  | _ => Ok data
  end.

(** [SSS.unpack]: the fields of [Sdb.unpack], then the class's [fixup]. *)
Definition unpack (c : sss_class) (structure : list byte) : res odict :=
  res_bind (Sdb_unpack (fields c) structure) (fixup c).

(** [len(current_test)] *)
Definition class_len (c : sss_class) : nat := required_length (fields c).

(** ** The type registries *)

Definition TESTS_VERSION_1 : gmap Z (string * sss_class) :=
  list_to_map
    [(0x01, ("Visual Pass (01)", SSSVisualTest));
     (0x02, ("Visual Fail (02)", SSSVisualTest));
     (0x10, ("Unknown (10)", SSSNoDataTest));
     (0xe0, ("User Data Mapping (E0)", SSSUserDataMappingTest));
     (0xe1, ("Retest (E1)", SSSRetestTest));
     (0xf0, ("Overall Pass (F0)", SSSNoDataTest));
     (0xf1, ("Overall Fail (F1)", SSSNoDataTest));
     (0xf2, ("Earth Resistance (F2)", SSSEarthResistanceTest));
     (0xf3, ("Earth Insulation (F3)", SSSEarthInsulationTest));
     (0xf4, ("Substitute Leakage (F4)", SSSCurrentTest));
     (0xf5, ("Flash Leakage (F5)", SSSCurrentTest));
     (0xf6, ("Load/Leakage (F6)", SSSPowerLeakTest));
     (0xf7, ("Flash Leakage (F5)", SSSCurrentTest));
     (0xf8, ("Continuity (F8)", SSSContinuityTest));
     (0xfa, ("Unknown (FA)", SSSNoDataTest));
     (0xfb, ("User data (FB)", SSSUserDataTest));
     (0xfe, ("Software Version (FE)", SSSSoftwareVersionTest));
     (0xff, ("End of Record (FF)", SSSNoDataTest))]%string.

Definition TESTS_VERSION_2 : gmap Z (string * sss_class) :=
  list_to_map
    [(0x11, ("Visual Pass v2 (11)", SSSVisualTest));
     (0x12, ("Visual Fail v2 (12)", SSSVisualTest));
     (0xf2, ("Earth Resistance v2 (F2)", SSSEarthResistanceTestv2));
     (0xf3, ("Earth Insulation v2 (F3)", SSSEarthInsulationTestv2));
     (0xf4, ("Substitute Leakage v2 (F4)", SSSCurrentTestv2));
     (0xf5, ("Flash Leakage v2 (F5)", SSSCurrentTestv2));
     (0xf6, ("Load/Leakage v2 (F6)", SSSPowerLeakTestv2));
     (0xf7, ("Flash Leakage v2 (F7)", SSSCurrentTestv2));
     (0xf8, ("Continuity v2 (F8)", SSSContinuityTestv2));
     (0xf9, ("Lead Continuity Pass (F9)", SSSNoDataTest))]%string.

(** [d.update(other)]: the entries of [other] win. *)
Definition dict_update {V} (d other : gmap Z V) : gmap Z V := other ∪ d.

(** ** Process state and the output workbook *)

(** What a worksheet cell receives.  Text that the source formats is kept
    as the operands of the formatting expression. *)
Inductive cell : Type :=
| Cell (v : value)
| CellFormat3 (a b c : value)        (* '%d.%d.%d' % (a, b, c) *)
| CellStrTuple (t : list value).     (* str(t) for a tuple t *)

(** A call on a worksheet of the output workbook; [sheet] is the index of
    the worksheet in [output_workbook.worksheets()]. *)
Inductive wcall : Type :=
| write_row (sheet : nat) (row col : Z) (data : list cell)
| write (sheet : nat) (row col : Z) (c : cell).

(** The function attributes set by [static_vars]. *)
Record statics : Type := Statics {
  test_id : Z;                 (* parse_record.test_id *)
  user_notes : list value;     (* report_record.user_notes *)
  user_counts : list Z         (* report_record.user_counts *)
}.

Record world : Type := World {
  static : statics;
  workbook : list wcall        (* calls made so far, oldest first *)
}.

(** The attributes as the module sets them when it is loaded. *)
Definition initial_statics : statics :=
  Statics 1 [VInt 0; VInt 1; VInt 2; VInt 3] [0; 0; 0; 0; 0; 0].

(** State first, exception second: what a raising call has written stays. *)
Definition M (A : Type) : Type := world -> res A * world.

#[global] Instance M_ret : MRet M := fun A a w => (Ok a, w).
#[global] Instance M_bind : MBind M := fun A B k m w =>
  match m w with
  | (Ok a, w') => k a w'
  | (Raise e, w') => (Raise e, w')
  end.

Definition raise {A} (e : exn) : M A := fun w => (Raise e, w).
Definition lift {A} (r : res A) : M A := fun w => (r, w).
Definition get_static : M statics := fun w => (Ok (static w), w).
Definition set_static (s : statics) : M unit :=
  fun w => (Ok tt, World s (workbook w)).
Definition emit (c : wcall) : M unit :=
  fun w => (Ok tt, World (static w) (workbook w ++ [c])).

(** [initialise_output] gives the workbook eight worksheets: "Records",
    "Tests" and the six optional-data sheets. *)
Definition n_worksheets : Z := 8.

(** [l[i]] for a Python sequence of length [n]: the position, or IndexError. *)
Definition py_index (n : Z) (i : Z) : res nat :=
  if (0 <=? i) && (i <? n) then Ok (Z.to_nat i)
  else if (- n <=? i) && (i <? 0) then Ok (Z.to_nat (n + i))
  else Raise IndexError.

Definition py_getitem {A} (l : list A) (i : Z) : res A :=
  res_bind (py_index (Z.of_nat (length l)) i) (fun k =>
  match l !! k with
  | Some x => Ok x
  | None => Raise IndexError
  end).

(** An object used as a list index. *)
Definition py_as_index (v : value) : res Z :=
  match v with
  | VInt z => Ok z
  | VBool b => Ok (if b then 1 else 0)
  | _ => Raise TypeError
  end.

(** ** datetime.datetime(year, month, day, hour, minute) *)

Definition is_leap (y : Z) : bool :=
  (y mod 4 =? 0) && (negb (y mod 100 =? 0) || (y mod 400 =? 0)).

Definition days_in_month (y m : Z) : Z :=
  if m =? 2 then (if is_leap y then 29 else 28)
  else if (m =? 4) || (m =? 6) || (m =? 9) || (m =? 11) then 30
  else 31.

Definition datetime (year month day hour minute : value) : res value :=
  match year, month, day, hour, minute with
  | VInt y, VInt mo, VInt d, VInt h, VInt mi =>
      if in_range 1 9999 y && in_range 1 12 mo
         && in_range 1 (days_in_month y mo) d
         && in_range 0 23 h && in_range 0 59 mi
      then Ok (VDatetime y mo d h mi)
      else Raise ValueError
  | _, _, _, _, _ => Raise TypeError
  end.

(** ** report_record *)

Definition SOFTWARE_COLUMN : Z := 8.
Definition RECORD_DATA_COLUMN : Z := 1.
Definition USER_DATA_COLUMN : Z := 2.
Definition RETEST_FREQ_COLUMN : Z := 10.
Definition ROW_ORDER_COLUMN : Z := 11.
Definition OPTIONAL_SHEETS_OFFSET : Z := 2.

Definition record_sheet : nat := 0.
Definition test_sheet : nat := 1.

Definition Z_in (x : Z) (l : list Z) : bool := existsb (Z.eqb x) l.

(** [test_type in range(0xf0, 0xfb) or test_type == 0x10] *)
Definition is_test_kind (test_type : Z) : bool :=
  ((0xf0 <=? test_type) && (test_type <? 0xfb)) || (test_type =? 0x10).

Definition is_number (v : value) : bool :=
  match v with
  | VInt _ | VFloat _ | VBool _ => true
  | _ => false
  end.

(** The body of the [for indx, data_value in enumerate(...)] loop of the
    0xfb branch, from position [indx] on. *)
Fixpoint user_data_loop (record_id : Z) (indx : Z) (data_values : list value)
    : M unit :=
  match data_values with
  | [] => mret tt
  | data_value :: rest =>
      (if py_bool data_value then
         s ← get_static;
         t ← lift (py_getitem (user_notes s) indx);
         target ← lift (py_as_index t);
         k ← lift (py_index (Z.of_nat (length (user_counts s))) target);
         n ← lift (py_getitem (user_counts s) target);
         set_static (Statics (test_id s) (user_notes s)
                             (<[k := n + 1]> (user_counts s)));;
         sheet ← lift (py_index n_worksheets (target + OPTIONAL_SHEETS_OFFSET));
         emit (write_row sheet (n + 1) 0 [Cell (VInt record_id); Cell data_value])
       else mret tt);;
      user_data_loop record_id (indx + 1) rest
  end.

Definition report_record (record_id : Z) (current_test : odict)
    (test_type : Z) (test_id_arg : Z) : M Z :=
  let data_values := od_values current_test in
  if Z_in test_type [0x01; 0x02; 0x11; 0x12; 0xfe; 0xe0; 0xe1] then
    (if test_type =? 0xfe then
       match data_values with
       | serial :: [a; b; c] =>
           if is_number a && is_number b && is_number c then
             emit (write_row record_sheet record_id SOFTWARE_COLUMN
                     [Cell serial; CellFormat3 a b c])
           else raise TypeError
       | _ => raise TypeError
       end
     else if test_type =? 0xe0 then
       s ← get_static;
       set_static (Statics (test_id s) (take 4 data_values) (user_counts s));;
       emit (write record_sheet record_id ROW_ORDER_COLUMN
               (CellStrTuple (take 4 data_values)))
     else if test_type =? 0xe1 then
       v ← lift (py_getitem data_values 2);
       emit (write record_sheet record_id RETEST_FREQ_COLUMN (Cell v))
     else
       match take 5 (drop 1 data_values) with
       | [hour; minute; day; month; year] =>
           timestamp ← lift (datetime year month day hour minute);
           item ← lift (py_getitem data_values 0);
           emit (write_row record_sheet record_id RECORD_DATA_COLUMN
                   (Cell item :: Cell timestamp :: map Cell (drop 6 data_values)))
       | _ => raise ValueError
       end);;
    emit (write record_sheet record_id 0 (Cell (VInt record_id)));;
    mret 0
  else if is_test_kind test_type then
    emit (write_row test_sheet test_id_arg 0
            (Cell (VInt test_id_arg) :: Cell (VInt record_id)
             :: Cell (VInt test_type) :: map Cell data_values));;
    mret (0 + 1)
  else if test_type =? 0xfb then
    user_data_loop record_id 0 data_values;;
    mret 0
  else mret 0.

(** ** parse_record: the sub-record walker *)

(** The local variables of [parse_record]. *)
Record walker : Type := Walker {
  payload : list byte;
  test_type : option Z;
  version : Z;
  tests : gmap Z (string * sss_class)
}.

(** [payload and test_type != 0xff] *)
Definition loop_cond (s : walker) : bool :=
  negb (Nat.eqb (length (payload s)) 0)
  && negb (bool_decide (test_type s = Some 0xff)).

(** [version == 1 and test_type in (0x11, 0x12)] *)
Definition upgrades (version : Z) (code : Z) : bool :=
  (version =? 1) && Z_in code [0x11; 0x12].

(** The version and the table after the check on type code [code]. *)
Definition upgrade_check (version : Z) (tests : gmap Z (string * sss_class))
    (code : Z) : Z * gmap Z (string * sss_class) :=
  if upgrades version code
  then (version + 1, dict_update tests TESTS_VERSION_2)
  else (version, tests).

(** One turn of the [while] loop. *)
Definition parse_step (record_id : Z) (s : walker) : M walker :=
  match payload s with
  | [] => raise IndexError
  | b :: payload1 =>
      let code := byte_val b in
      let '(version1, tests1) := upgrade_check (version s) (tests s) code in
      match tests1 !! code with
      | None => raise (KeyError code)
      | Some (_, cls) =>
          current_test ← lift (unpack cls (take (class_len cls) payload1));
          st ← get_static;
          tests_written ← report_record record_id current_test code (test_id st);
          st' ← get_static;
          set_static (Statics (test_id st' + tests_written)
                              (user_notes st') (user_counts st'));;
          mret (Walker (drop (class_len cls) payload1) (Some code)
                       version1 tests1)
      end
  end.

(** The loop; every turn takes at least the type code off the payload, so
    [length (payload s)] turns are always enough. *)
Fixpoint walk_fuel (fuel : nat) (record_id : Z) (s : walker) : M unit :=
  if loop_cond s then
    match fuel with
    | O => mret tt
    | S fuel' =>
        s' ← parse_step record_id s;
        walk_fuel fuel' record_id s'
    end
  else mret tt.

Definition walk (record_id : Z) (s : walker) : M unit :=
  walk_fuel (length (payload s)) record_id s.

(** The walker as [parse_record] sets it up. *)
Definition initial_walker (payload : list byte) : walker :=
  Walker payload None 1 TESTS_VERSION_1.

Definition parse_record (payload : list byte) (record_id : Z) : M unit :=
  walk record_id (initial_walker payload).

(** ** records_gen: the frame reader *)

(** [filehandle.read(n)] on the bytes not yet read. *)
Definition read (n : nat) (filehandle : list byte) : list byte * list byte :=
  (take n filehandle, drop n filehandle).

(** [SSSRecordHeader.checksum] *)
Definition py_sum (payload : list byte) : Z :=
  fold_left (fun acc b => acc + byte_val b) payload 0.

Definition checksum_payload (payload : list byte) : Z :=
  Z.land (py_sum payload) 0xffff.

Definition checksum (data : odict) (payload : list byte) : res bool :=
  res_bind (od_getitem "checksum_header" data) (fun h =>
  match h with
  | VInt c => Ok (c =? checksum_payload payload)
  | _ => Ok false
  end).

(** What one [next(records)] gives: a payload and the bytes left to read,
    the end of the generator, or an exception. *)
Inductive gen_step : Type :=
| Yield (payload : list byte) (filehandle : list byte)
| StopIteration
| GenRaise (e : exn).

(** The reader keeps one header object; each [unpack] overwrites every key
    the reader consults, so the header's dictionary starts empty here. *)
Fixpoint records_gen_fuel (fuel : nat) (filehandle : list byte) : gen_step :=
  match fuel with
  | O => StopIteration
  | S fuel' =>
      let '(header, fh1) := read (class_len SSSRecordHeader) filehandle in
      if Nat.eqb (length header) 0 then StopIteration
      else
        match unpack SSSRecordHeader header with
        | Raise e => GenRaise e
        | Ok data =>
            match od_getitem "payload_length" data with
            | Ok (VInt n) =>
                if n =? 0 then records_gen_fuel fuel' fh1
                else
                  let '(payload, fh2) := read (Z.to_nat n) fh1 in
                  match checksum data payload with
                  | Ok true => Yield payload fh2
                  | Ok false => records_gen_fuel fuel' fh2
                  | Raise e => GenRaise e
                  end
            | Ok _ => GenRaise TypeError
            | Raise e => GenRaise e
            end
        end
  end.

(** Every turn that goes on has read a whole header. *)
Definition records_gen (filehandle : list byte) : gen_step :=
  records_gen_fuel (S (length filehandle)) filehandle.

(** ** parse_sss *)

Fixpoint parse_sss_fuel (fuel : nat) (filehandle : list byte) (record_id : Z)
    : M unit :=
  match fuel with
  | O => mret tt
  | S fuel' =>
      match records_gen filehandle with
      | StopIteration => mret tt
      | GenRaise e => raise e
      | Yield payload filehandle' =>
          parse_record payload record_id;;
          parse_sss_fuel fuel' filehandle' (record_id + 1)
      end
  end.

Definition parse_sss_from (filehandle : list byte) (record_id : Z) : M unit :=
  parse_sss_fuel (S (length filehandle)) filehandle record_id.

Definition parse_sss (filehandle : list byte) : M unit :=
  parse_sss_from filehandle 1.

(** One file of [main]: a new workbook, the process's function attributes. *)
Definition decode_stream (filehandle : list byte) (s : statics) : res unit * world :=
  parse_sss filehandle (World s []).

(** * Notions used in the statements *)

(** The payload length and the checksum field of a header. *)
Definition header_length (header : list byte) : Z := be_int (take 2 header).
Definition header_checksum (header : list byte) : Z := be_int (take 2 (drop 4 header)).

(** One turn of the reader's loop, with [continue] as the call [next]. *)
Definition records_gen_body (next : list byte -> gen_step)
    (filehandle : list byte) : gen_step :=
  match filehandle with
  | [] => StopIteration
  | _ =>
      if (length filehandle <? 6)%nat then GenRaise struct_error
      else
        let header := take 6 filehandle in
        let fh1 := drop 6 filehandle in
        let n := header_length header in
        if n =? 0 then next fh1
        else
          let payload := take (Z.to_nat n) fh1 in
          let fh2 := drop (Z.to_nat n) fh1 in
          if header_checksum header =? checksum_payload payload
          then Yield payload fh2
          else next fh2
  end.

(** A check of [p] on the [n] integers from [v] on. *)
Fixpoint all_from (n : nat) (v : Z) (p : Z -> bool) : bool :=
  match n with
  | O => true
  | S n' => p v && all_from n' (v + 1) p
  end.

(** The rescaled value compares equal to [0.0] exactly when the mantissa
    is zero. *)
Definition zero_iff_mantissa (v : Z) : bool :=
  match rescale_value v with
  | Ok r => Bool.eqb (py_eq_zero r) (Z.land v 0x3fff =? 0)
  | Raise _ => false
  end.

Definition merged_tests : gmap Z (string * sss_class) :=
  dict_update TESTS_VERSION_1 TESTS_VERSION_2.

(** The byte offset of a field in the packed structure, and the raw byte
    found there. *)
Fixpoint field_offset (name : string) (fs : list field) : option nat :=
  match fs with
  | [] => None
  | f :: fs' =>
      if String.eqb name f.1.1 then Some 0%nat
      else (fun k => (fmt_size (field_fmt f) + k)%nat) <$> field_offset name fs'
  end.

Definition raw_byte (name : string) (cls : sss_class) (structure : list byte)
    : option Z :=
  field_offset name (fields cls) ≫= fun off => byte_val <$> structure !! off.

(** A computation that leaves [parse_record.test_id] alone, whatever its
    outcome. *)
Definition keeps_test_id {A} (m : M A) : Prop :=
  forall w r w', m w = (r, w') -> test_id (static w') = test_id (static w).

(** ** The decoder as a state machine

    [parse_sss] is either between two records, about to ask the frame reader
    for the next payload, or inside [parse_record], walking a payload.  The
    steps below are the turns of the two loops; [resume] is what the source
    still has to run from a state, and every step leaves it unchanged. *)

Inductive pstate : Type :=
| AwaitingRecord (filehandle : list byte) (record_id : Z)
| Walking (filehandle : list byte) (record_id : Z) (s : walker).

Inductive label : Type :=
| Emitted (record_id : Z)              (* the reader yields a payload *)
| Decoded (record_id code test_id : Z) (* one sub-record decoded and reported *)
| Finished.                            (* parse_record returns; record_id += 1 *)

Inductive sstep : pstate * world -> label -> pstate * world -> Prop :=
| step_yield filehandle record_id w payload filehandle' :
    records_gen filehandle = Yield payload filehandle' ->
    sstep (AwaitingRecord filehandle record_id, w)
          (Emitted record_id)
          (Walking filehandle' record_id (initial_walker payload), w)
| step_decode filehandle record_id s w b rest s' w' :
    loop_cond s = true ->
    payload s = b :: rest ->
    parse_step record_id s w = (Ok s', w') ->
    sstep (Walking filehandle record_id s, w)
          (Decoded record_id (byte_val b) (test_id (static w)))
          (Walking filehandle record_id s', w')
| step_finish filehandle record_id s w :
    loop_cond s = false ->
    sstep (Walking filehandle record_id s, w)
          Finished
          (AwaitingRecord filehandle (record_id + 1), w).

Inductive steps : pstate * world -> list label -> pstate * world -> Prop :=
| steps_nil x : steps x [] x
| steps_cons x l y t z : sstep x l y -> steps y t z -> steps x (l :: t) z.

Definition resume (st : pstate) : M unit :=
  match st with
  | AwaitingRecord filehandle record_id => parse_sss_from filehandle record_id
  | Walking filehandle record_id s =>
      walk record_id s;; parse_sss_from filehandle (record_id + 1)
  end.

(** The identifier the next emitted record will get. *)
Definition next_record_id (st : pstate) : Z :=
  match st with
  | AwaitingRecord _ record_id => record_id
  | Walking _ record_id _ => record_id + 1
  end.

Definition counts_record (l : label) : Z :=
  match l with
  | Emitted _ => 1
  | _ => 0
  end.

Definition counts_test (l : label) : Z :=
  match l with
  | Decoded _ code _ => if is_test_kind code then 1 else 0
  | _ => 0
  end.

Definition total (f : label -> Z) (t : list label) : Z :=
  foldr (fun l n => f l + n) 0 t.

Definition same_record (t : list label) : Prop :=
  Forall (fun l => counts_record l = 0) t.

(** A walker that has gone over to the merged table. *)
Definition upgraded (st : pstate) : Prop :=
  match st with
  | Walking _ _ s => version s = 2 /\ tests s = merged_tests
  | AwaitingRecord _ _ => True
  end.

(** Two records for the examples: a version-2 visual pass on 2019-02-01 at
    12:30 with empty text fields, and an earth-resistance test. *)
Definition visual_fields : list byte :=
  replicate 16 x00 ++ [x0c; x1e; x01; x02; x07; xe3] ++ replicate 64 x00.

Definition visual_v2_record : list byte :=
  [x00; x58; x00; x00; x02; x27] ++ [x11] ++ visual_fields ++ [xff].

Definition earth_record : list byte :=
  [x00; x04; x00; x00; x02; x95] ++ [xf2; x40; x64; xff].



(** The rows of the test sheet as the workbook shows them: the test
    identifier, the record identifier and the type code in the first three
    cells of a row written on that sheet. *)
Definition test_row (c : wcall) : option (Z * Z * Z) :=
  match c with
  | write_row sheet _ _ data =>
      if Nat.eqb sheet test_sheet then
        match data with
        | Cell (VInt tid) :: Cell (VInt rid) :: Cell (VInt code) :: _ =>
            Some (tid, rid, code)
        | _ => None
        end
      else None
  | write _ _ _ _ => None
  end.

Definition test_rows (calls : list wcall) : list (Z * Z * Z) :=
  omap test_row calls.

(** The test row that goes with a label of a run. *)
Definition label_row (l : label) : option (Z * Z * Z) :=
  match l with
  | Decoded record_id code tid =>
      if is_test_kind code then Some (tid, record_id, code) else None
  | _ => None
  end.

(** A stream of two records, each an overall pass and the end of record. *)
Definition two_passes : list byte :=
  [x00; x02; x00; x00; x01; xef] ++ [xf0; xff]
  ++ [x00; x02; x00; x00; x01; xef] ++ [xf0; xff].

(** * Further notions: the rest of the code *)

(** ** Sdb: headings, lengths and the outcome of unpack *)


(** The size a field declares, and the sizes [build_format_string] packs
    as declared. *)
Definition declared_size (f : field) : nat := f.2.

Definition size_as_declared (f : field) : Prop :=
  match f with
  | (_, int, size) => size = 1%nat \/ size = 2%nat \/ size = 4%nat
  | (_, str, _) => True
  end.


(** The header's dictionary after [SSSRecordHeader.checksum], which stores
    the sum it computed and the outcome of the comparison. *)
Definition checksum_store (data : odict) (payload : list byte) : res odict :=
  let data1 := od_set "checksum_payload" (VInt (checksum_payload payload)) data in
  res_bind (checksum data1 payload) (fun m =>
  Ok (od_set "checksum_match" (VBool m) data1)).

(** ** The frame reader: what it passes over *)

(** A whole record that the reader passes over: six bytes of header, a
    payload of the declared length, and either that length is zero or the
    payload fails the checksum. *)
Definition skipped_record (r : list byte) : Prop :=
  let header := take 6 r in
  let payload := drop 6 r in
  length header = 6%nat
  /\ Z.of_nat (length payload) = header_length header
  /\ (header_length header = 0
      \/ header_checksum header <> checksum_payload payload).

(** ** The walker's table *)

(** The version and the table the walker can hold. *)
Definition walker_ok (s : walker) : Prop :=
  (version s = 1 /\ tests s = TESTS_VERSION_1)
  \/ (version s = 2 /\ tests s = merged_tests).

(** The loop of [parse_record] left after at most [n] turns, with the
    locals it has reached. *)
Fixpoint turns (n : nat) (record_id : Z) (s : walker) : M walker :=
  match n with
  | O => mret s
  | S n' =>
      if loop_cond s then
        s' ← parse_step record_id s;
        turns n' record_id s'
      else mret s
  end.

(** The type codes a walker finds an entry for, before and after the
    upgrade. *)
Definition codes_version_1 : list Z :=
  [0x01; 0x02; 0x10; 0x11; 0x12; 0xe0; 0xe1; 0xf0; 0xf1; 0xf2; 0xf3; 0xf4;
   0xf5; 0xf6; 0xf7; 0xf8; 0xfa; 0xfb; 0xfe; 0xff].

Definition codes_version_2 : list Z := 0xf9 :: codes_version_1.

(** The class the walker unpacks a type code with, in a given version. *)
Definition active_entry (version : Z) (tests : gmap Z (string * sss_class))
    (code : Z) : option (string * sss_class) :=
  (upgrade_check version tests code).2 !! code.

Definition known_codes_check (code : Z) : bool :=
  Bool.eqb (bool_decide (is_Some (active_entry 1 TESTS_VERSION_1 code)))
           (Z_in code codes_version_1)
  && Bool.eqb (bool_decide (is_Some (active_entry 2 merged_tests code)))
              (Z_in code codes_version_2).

(** ** What decoding never undoes *)

(** The workbook only gains calls, the test counter does not go down and
    the list of row counters keeps its length. *)
Definition grows (w w' : world) : Prop :=
  (exists new, workbook w' = workbook w ++ new)
  /\ test_id (static w) <= test_id (static w')
  /\ length (user_counts (static w')) = length (user_counts (static w)).

Definition respects {A} (R : world -> world -> Prop) (m : M A) : Prop :=
  forall w r w', m w = (r, w') -> R w w'.

(** ** Numbers after rescaling *)

(** A rescaled 16-bit field is the field itself, as an [int], below 0x4000,
    and a [float] from 0 to 0.1 * 16383 (the binary64 0x1.9993333333334p+10) from
    0x4000 on. *)
Definition rescale_range_check (v : Z) : bool :=
  match rescale_value v with
  | Ok (VInt m) => (v <? 0x4000) && (m =? v)
  | Ok (VFloat f) =>
      (0x4000 <=? v) && PrimFloat.leb 0 f && PrimFloat.leb f 0x1.9993333333334p+10
  | _ => false
  end.

(** ** The exceptions of a decoding *)




#[global] Instance sss_class_eq_dec : EqDecision sss_class.
Proof. solve_decision. Defined.




(** ** initialise_output and main *)

(** [initialise_output]: the eight worksheets in the order they are added,
    each with the header row written at 'A1'. *)
Definition sheet_headers : list (string * list string) :=
  [("Records",
    ["Record ID"; "Item ID"; "Timestamp"; "Site"; "Location"; "Tester";
     "Testcode 1"; "Testcode2"; "Serial No."; "Firmware Version";
     "Retest Freq. (Months)"; "User Data Input Order"]);
   ("Tests",
    ["Test ID"; "Record ID"; "Test Type"; "Test Parameter 1";
     "Test Parameter 2"; "Test Parameter 3"]);
   ("Item Notes", ["Record ID"; "Notes"]);
   ("Item Description", ["Record ID"; "Asset Description"]);
   ("Item Group", ["Record ID"; "Asset Group"]);
   ("Item Make", ["Record ID"; "Make"]);
   ("Item Model", ["Record ID"; "Model"]);
   ("Item Serial Number", ["Record ID"; "Serial Number"])].

(** The calls [initialise_output] makes, one [write_row] per sheet. *)
Definition header_rows : list wcall :=
  imap (fun i sheet => write_row i 0 0 (map (fun h => Cell (VStr h)) sheet.2))
       sheet_headers.

(** How [main] ends: [sys.exit(2)] without a file name, a normal return,
    or an exception that nothing catches ([SSSSyntaxError], the one
    exception [main] handles, is raised nowhere). *)
Inductive outcome : Type :=
| Exited (code : Z)
| Returned
| Uncaught (e : exn).

(** * The decoder and a worksheet that can raise

    [emit] above is a worksheet that takes every call, which is all the
    decoding of the stream depends on.  The worksheets are xlsxwriter's: they
    are no part of this program, and a call on them can raise on the text it
    is given.  Below, the code from [report_record] up to [main] is run
    against a worksheet whose behaviour is left open: [answer calls c] is the
    exception, if any, with which the worksheet answers the call [c] after
    the calls [calls].  Nothing in the program catches such an exception. *)
Module Worksheet.
Section Answer.
Variable answer : list wcall -> wcall -> option exn.

Definition emit (c : wcall) : M unit :=
  fun w =>
    match answer (workbook w) c with
    | Some e => (Raise e, w)
    | None => (Ok tt, World (static w) (workbook w ++ [c]))
    end.

Fixpoint user_data_loop (record_id : Z) (indx : Z) (data_values : list value)
    : M unit :=
  match data_values with
  | [] => mret tt
  | data_value :: rest =>
      (if py_bool data_value then
         s ← get_static;
         t ← lift (py_getitem (user_notes s) indx);
         target ← lift (py_as_index t);
         k ← lift (py_index (Z.of_nat (length (user_counts s))) target);
         n ← lift (py_getitem (user_counts s) target);
         set_static (Statics (test_id s) (user_notes s)
                             (<[k := n + 1]> (user_counts s)));;
         sheet ← lift (py_index n_worksheets (target + OPTIONAL_SHEETS_OFFSET));
         emit (write_row sheet (n + 1) 0 [Cell (VInt record_id); Cell data_value])
       else mret tt);;
      user_data_loop record_id (indx + 1) rest
  end.

Definition report_record (record_id : Z) (current_test : odict)
    (test_type : Z) (test_id_arg : Z) : M Z :=
  let data_values := od_values current_test in
  if Z_in test_type [0x01; 0x02; 0x11; 0x12; 0xfe; 0xe0; 0xe1] then
    (if test_type =? 0xfe then
       match data_values with
       | serial :: [a; b; c] =>
           if is_number a && is_number b && is_number c then
             emit (write_row record_sheet record_id SOFTWARE_COLUMN
                     [Cell serial; CellFormat3 a b c])
           else raise TypeError
       | _ => raise TypeError
       end
     else if test_type =? 0xe0 then
       s ← get_static;
       set_static (Statics (test_id s) (take 4 data_values) (user_counts s));;
       emit (write record_sheet record_id ROW_ORDER_COLUMN
               (CellStrTuple (take 4 data_values)))
     else if test_type =? 0xe1 then
       v ← lift (py_getitem data_values 2);
       emit (write record_sheet record_id RETEST_FREQ_COLUMN (Cell v))
     else
       match take 5 (drop 1 data_values) with
       | [hour; minute; day; month; year] =>
           timestamp ← lift (datetime year month day hour minute);
           item ← lift (py_getitem data_values 0);
           emit (write_row record_sheet record_id RECORD_DATA_COLUMN
                   (Cell item :: Cell timestamp :: map Cell (drop 6 data_values)))
       | _ => raise ValueError
       end);;
    emit (write record_sheet record_id 0 (Cell (VInt record_id)));;
    mret 0
  else if is_test_kind test_type then
    emit (write_row test_sheet test_id_arg 0
            (Cell (VInt test_id_arg) :: Cell (VInt record_id)
             :: Cell (VInt test_type) :: map Cell data_values));;
    mret (0 + 1)
  else if test_type =? 0xfb then
    user_data_loop record_id 0 data_values;;
    mret 0
  else mret 0.

Definition parse_step (record_id : Z) (s : walker) : M walker :=
  match payload s with
  | [] => raise IndexError
  | b :: payload1 =>
      let code := byte_val b in
      let '(version1, tests1) := upgrade_check (version s) (tests s) code in
      match tests1 !! code with
      | None => raise (KeyError code)
      | Some (_, cls) =>
          current_test ← lift (unpack cls (take (class_len cls) payload1));
          st ← get_static;
          tests_written ← report_record record_id current_test code (test_id st);
          st' ← get_static;
          set_static (Statics (test_id st' + tests_written)
                              (user_notes st') (user_counts st'));;
          mret (Walker (drop (class_len cls) payload1) (Some code)
                       version1 tests1)
      end
  end.

Fixpoint walk_fuel (fuel : nat) (record_id : Z) (s : walker) : M unit :=
  if loop_cond s then
    match fuel with
    | O => mret tt
    | S fuel' =>
        s' ← parse_step record_id s;
        walk_fuel fuel' record_id s'
    end
  else mret tt.

Definition walk (record_id : Z) (s : walker) : M unit :=
  walk_fuel (length (payload s)) record_id s.

Definition parse_record (payload : list byte) (record_id : Z) : M unit :=
  walk record_id (initial_walker payload).

Fixpoint parse_sss_fuel (fuel : nat) (filehandle : list byte) (record_id : Z)
    : M unit :=
  match fuel with
  | O => mret tt
  | S fuel' =>
      match records_gen filehandle with
      | StopIteration => mret tt
      | GenRaise e => raise e
      | Yield payload filehandle' =>
          parse_record payload record_id;;
          parse_sss_fuel fuel' filehandle' (record_id + 1)
      end
  end.

Definition parse_sss_from (filehandle : list byte) (record_id : Z) : M unit :=
  parse_sss_fuel (S (length filehandle)) filehandle record_id.

Definition parse_sss (filehandle : list byte) : M unit :=
  parse_sss_from filehandle 1.

(** [initialise_output] writes the header rows, sheet after sheet. *)
Definition initialise_output : M unit :=
  foldr (fun c rest => emit c;; rest) (mret tt) header_rows.

(** One turn of the loop of [main]: a new workbook with its header rows,
    then the decoding, with the function attributes as the process has
    them. *)
Definition decode_file (contents : list byte) (s : statics) : res unit * world :=
  (initialise_output;; parse_sss contents) (World s []).

(** The loop of [main] over the contents of the files named on the command
    line: the workbooks closed so far, how the loop ends, and the function
    attributes it leaves. *)
Fixpoint main_loop (files : list (list byte)) (s : statics)
    : list (list wcall) * outcome * statics :=
  match files with
  | [] => ([], Returned, s)
  | contents :: files' =>
      match decode_file contents s with
      | (Ok _, w) =>
          let '(closed, out, s') := main_loop files' (static w) in
          (workbook w :: closed, out, s')
      | (Raise e, w) => ([], Uncaught e, static w)
      end
  end.

Definition main (files : list (list byte)) (s : statics)
    : list (list wcall) * outcome * statics :=
  match files with
  | [] => ([], Exited 2, s)
  | _ => main_loop files s
  end.

End Answer.
End Worksheet.

(** A worksheet that takes every call, and one that raises [IndexError]
    on a row holding the text "external:", which xlsxwriter takes for a link
    without a target. *)
Definition takes_all : list wcall -> wcall -> option exn := fun _ _ => None.

Definition is_link (c : cell) : bool :=
  match c with
  | Cell (VStr s) => String.eqb s "external:"
  | _ => false
  end.

Definition refuses_link : list wcall -> wcall -> option exn :=
  fun _ c =>
    match c with
    | write_row _ _ _ data =>
        if existsb is_link data then Some IndexError else None
    | write _ _ _ _ => None
    end.

(** An exception that comes out of a call on a worksheet. *)
Definition from_worksheet (answer : list wcall -> wcall -> option exn)
    (e : exn) : Prop :=
  exists calls c, answer calls c = Some e.

(** The code against the worksheet [answer] does what it does against one
    that takes every call, up to the first call the worksheet raises on. *)
Definition follows {A} (answer : list wcall -> wcall -> option exn)
    (m' m : M A) : Prop :=
  forall w,
    m' w = m w
    \/ exists e w', m' w = (Raise e, w') /\ from_worksheet answer e.

(** * Properties *)

(** ** Bytes *)

Lemma byte_val_range (b : byte) : 0 <= byte_val b < 256.
Proof.
  unfold byte_val. pose proof (Byte.to_N_bounded b). lia.
Qed.

Lemma be_int_2 (b0 b1 : byte) : be_int [b0; b1] = 256 * byte_val b0 + byte_val b1.
Proof. unfold be_int. simpl. lia. Qed.

Lemma be_int_2_range (b0 b1 : byte) : 0 <= be_int [b0; b1] <= 65535.
Proof.
  rewrite be_int_2.
  pose proof (byte_val_range b0). pose proof (byte_val_range b1). lia.
Qed.

(** ** Checks on concrete inputs *)

Example py_pow10_negative :
  py_pow10 (-1) = VFloat 0x1.999999999999ap-4
  /\ py_pow10 (-2) = VFloat 0x1.47ae147ae147bp-7
  /\ py_pow10 (-3) = VFloat 0x1.0624dd2f1a9fcp-10
  /\ py_pow10 0 = VInt 1.
Proof. repeat split; vm_compute; reflexivity. Qed.

(** A fixed-width text field loses its zero fill and its trailing blanks. *)
Example unpack_text_field :
  Sdb_unpack [("site", str, 16%nat)]
    (list_byte_of_string "SITE" ++ replicate 3 x00 ++ list_byte_of_string "  "
     ++ replicate 7 x00)
  = Ok [("site", VStr "SITE")].
Proof. vm_compute. reflexivity. Qed.

Example unpack_user_data_mapping :
  unpack SSSUserDataMappingTest [x05; x00; x01; x02]
  = Ok [("mapping1", VInt 5); ("mapping2", VInt 0); ("mapping3", VInt 1);
        ("mapping4", VInt 2); ("meaning1", VStr "Serial No.");
        ("meaning2", VStr "Notes"); ("meaning3", VStr "Asset Description");
        ("meaning4", VStr "Asset Group")]
  /\ unpack SSSUserDataMappingTest [x06; x00; x01; x02] = Raise (KeyError 6).
Proof. split; vm_compute; reflexivity. Qed.

(** The end-to-end scenario: one record with a visual pass and the
    end-of-record sentinel gives one row on the record sheet, with record
    identifier 1 and no test identifier, and the stream is exhausted. *)
Example decode_visual_pass :
  let payload := [x01] ++ replicate 16 x00
                 ++ [x0c; x1e; x01; x02; x07; xe3] ++ replicate 64 x00 ++ [xff] in
  decode_stream ([x00; x58; x00; x00; x02; x17] ++ payload) initial_statics
  = (Ok tt,
     World initial_statics
       [write_row 0 1 1
          [Cell (VStr ""); Cell (VDatetime 2019 2 1 12 30); Cell (VStr "");
           Cell (VStr ""); Cell (VStr ""); Cell (VStr ""); Cell (VStr "")];
        write 0 1 0 (Cell (VInt 1))]).
Proof. vm_compute. reflexivity. Qed.

(** ** The walker always terminates *)

Lemma parse_step_shrinks record_id s w s' w' :
  parse_step record_id s w = (Ok s', w') ->
  (length (payload s') < length (payload s))%nat.
Proof.
  unfold parse_step. destruct (payload s) as [|b payload1]; [discriminate|].
  destruct (upgrade_check _ _ _) as [version1 tests1].
  destruct (tests1 !! byte_val b) as [[label cls]|]; [|discriminate].
  unfold mbind, M_bind, lift, get_static, set_static, mret, M_ret.
  destruct (unpack cls _); [|discriminate].
  destruct (report_record _ _ _ _ _) as [[n|e] w1]; [|discriminate].
  intros [= <- _]. simpl. rewrite length_drop. lia.
Qed.

Lemma loop_cond_nonempty s : loop_cond s = true -> (0 < length (payload s))%nat.
Proof.
  unfold loop_cond. destruct (payload s); simpl; [discriminate | lia].
Qed.

Lemma walk_fuel_irrelevant fuel1 : forall fuel2 record_id s w,
  (length (payload s) <= fuel1)%nat ->
  (length (payload s) <= fuel2)%nat ->
  walk_fuel fuel1 record_id s w = walk_fuel fuel2 record_id s w.
Proof.
  induction fuel1 as [|fuel1 IH]; intros fuel2 record_id s w H1 H2.
  - destruct fuel2; simpl; [reflexivity|].
    destruct (loop_cond s) eqn:Hc; [|reflexivity].
    apply loop_cond_nonempty in Hc. lia.
  - simpl. destruct (loop_cond s) eqn:Hc.
    + pose proof (loop_cond_nonempty _ Hc) as Hpos.
      destruct fuel2 as [|fuel2]; [lia|]. simpl. rewrite Hc.
      unfold mbind, M_bind.
      destruct (parse_step record_id s w) as [[s'|e] w'] eqn:Hs; [|reflexivity].
      apply parse_step_shrinks in Hs. apply IH; lia.
    + destruct fuel2; simpl; rewrite Hc; reflexivity.
Qed.

(** The loop equation of [while payload and test_type != 0xff]. *)
Lemma walk_unfold record_id s w :
  walk record_id s w =
  if loop_cond s
  then (parse_step record_id s ≫= walk record_id) w
  else (Ok tt, w).
Proof.
  unfold walk at 1.
  destruct (loop_cond s) eqn:Hc.
  - pose proof (loop_cond_nonempty _ Hc) as Hpos.
    destruct (length (payload s)) as [|n] eqn:Hn; [lia|].
    simpl. rewrite Hc. unfold mbind, M_bind.
    destruct (parse_step record_id s w) as [[s'|e] w'] eqn:Hs; [|reflexivity].
    apply parse_step_shrinks in Hs. unfold walk.
    apply walk_fuel_irrelevant; lia.
  - destruct (length (payload s)); simpl; rewrite Hc; reflexivity.
Qed.

(** ** The frame reader always terminates *)

Lemma unpack_header_short (header : list byte) :
  (0 < length header < 6)%nat ->
  unpack SSSRecordHeader header = Raise struct_error.
Proof.
  intros H.
  do 6 (destruct header as [|? header]; [simpl in H; try lia; reflexivity|]).
  simpl in H. lia.
Qed.

Lemma unpack_header_full (b0 b1 b2 b3 b4 b5 : byte) :
  unpack SSSRecordHeader [b0; b1; b2; b3; b4; b5] =
  Ok [("payload_length", VInt (be_int [b0; b1]));
      ("nulls", VInt (be_int [b2; b3]));
      ("checksum_header", VInt (be_int [b4; b5]))]%string.
Proof. reflexivity. Qed.

Lemma records_gen_fuel_body fuel filehandle :
  records_gen_fuel (S fuel) filehandle =
  records_gen_body (records_gen_fuel fuel) filehandle.
Proof.
  destruct filehandle as [|b0 fh]; [reflexivity|].
  unfold records_gen_body.
  destruct (Nat.ltb_spec (length (b0 :: fh)) 6) as [Hlt|Hge].
  - cbn [records_gen_fuel read]. change (class_len SSSRecordHeader) with 6%nat.
    rewrite unpack_header_short.
    + destruct (take 6 (b0 :: fh)) eqn:E; [discriminate|reflexivity].
    + rewrite length_take. cbn [length] in *. lia.
  - destruct fh as [|b1 [|b2 [|b3 [|b4 [|b5 rest]]]]]; simpl in Hge; try lia.
    cbn [records_gen_fuel read]. change (class_len SSSRecordHeader) with 6%nat.
    change (take 6 (b0 :: b1 :: b2 :: b3 :: b4 :: b5 :: rest))
      with [b0; b1; b2; b3; b4; b5].
    change (drop 6 (b0 :: b1 :: b2 :: b3 :: b4 :: b5 :: rest)) with rest.
    rewrite unpack_header_full.
    change (length [b0; b1; b2; b3; b4; b5] =? 0)%nat with false.
    cbv iota.
    change (od_getitem "payload_length" _)
      with (Ok (VInt (be_int [b0; b1]))).
    change (header_length [b0; b1; b2; b3; b4; b5]) with (be_int [b0; b1]).
    change (header_checksum [b0; b1; b2; b3; b4; b5]) with (be_int [b4; b5]).
    cbv beta iota zeta.
    destruct (be_int [b0; b1] =? 0); [reflexivity|].
    unfold checksum.
    change (od_getitem "checksum_header" _) with (Ok (VInt (be_int [b4; b5]))).
    cbn [res_bind].
    destruct (be_int [b4; b5] =? _); reflexivity.
Qed.

Lemma records_gen_fuel_irrelevant fuel1 : forall fuel2 filehandle,
  (length filehandle < fuel1)%nat ->
  (length filehandle < fuel2)%nat ->
  records_gen_fuel fuel1 filehandle = records_gen_fuel fuel2 filehandle.
Proof.
  induction fuel1 as [|fuel1 IH]; intros fuel2 fh H1 H2; [lia|].
  destruct fuel2 as [|fuel2]; [lia|].
  rewrite !records_gen_fuel_body. unfold records_gen_body.
  destruct fh as [|b fh]; [reflexivity|].
  destruct (Nat.ltb_spec (length (b :: fh)) 6) as [Hlt|Hge]; [reflexivity|].
  cbv zeta. destruct (_ =? 0).
  - apply IH; rewrite length_drop; lia.
  - destruct (_ =? _); [reflexivity|].
    apply IH; rewrite !length_drop; lia.
Qed.

(** The loop equation of [records_gen]. *)
Lemma records_gen_unfold filehandle :
  records_gen filehandle = records_gen_body records_gen filehandle.
Proof.
  unfold records_gen at 1. rewrite records_gen_fuel_body.
  unfold records_gen_body.
  destruct filehandle as [|b fh]; [reflexivity|].
  destruct (Nat.ltb_spec (length (b :: fh)) 6) as [Hlt|Hge]; [reflexivity|].
  cbv zeta. destruct (_ =? 0).
  - apply records_gen_fuel_irrelevant; rewrite ?length_drop; lia.
  - destruct (_ =? _); [reflexivity|].
    apply records_gen_fuel_irrelevant; rewrite ?length_drop; lia.
Qed.

Lemma records_gen_fuel_shrinks fuel : forall filehandle payload filehandle',
  records_gen_fuel fuel filehandle = Yield payload filehandle' ->
  (length payload + length filehandle' + 6 <= length filehandle)%nat.
Proof.
  induction fuel as [|fuel IH]; intros fh p fh'; [discriminate|].
  rewrite records_gen_fuel_body. unfold records_gen_body.
  destruct fh as [|b fh]; [discriminate|].
  destruct (Nat.ltb_spec (length (b :: fh)) 6) as [Hlt|Hge]; [discriminate|].
  cbv zeta. destruct (_ =? 0).
  - intros H. apply IH in H. rewrite length_drop in H. lia.
  - destruct (_ =? _).
    + intros [= <- <-]. rewrite length_take, !length_drop. cbn [length] in *. lia.
    + intros H. apply IH in H. rewrite !length_drop in H. lia.
Qed.

Lemma records_gen_shrinks filehandle payload filehandle' :
  records_gen filehandle = Yield payload filehandle' ->
  (length payload + length filehandle' + 6 <= length filehandle)%nat.
Proof. apply records_gen_fuel_shrinks. Qed.

(** ** parse_sss always terminates *)

Lemma parse_sss_fuel_irrelevant fuel1 : forall fuel2 filehandle record_id w,
  (length filehandle < fuel1)%nat ->
  (length filehandle < fuel2)%nat ->
  parse_sss_fuel fuel1 filehandle record_id w
  = parse_sss_fuel fuel2 filehandle record_id w.
Proof.
  induction fuel1 as [|fuel1 IH]; intros fuel2 fh rid w H1 H2; [lia|].
  destruct fuel2 as [|fuel2]; [lia|].
  simpl. destruct (records_gen fh) as [p fh'| |e] eqn:Hg; try reflexivity.
  apply records_gen_shrinks in Hg.
  unfold mbind, M_bind.
  destruct (parse_record p rid w) as [[[]|e] w']; [|reflexivity].
  apply IH; lia.
Qed.

(** The loop equation of [parse_sss]. *)
Lemma parse_sss_from_unfold filehandle record_id w :
  parse_sss_from filehandle record_id w =
  match records_gen filehandle with
  | StopIteration => (Ok tt, w)
  | GenRaise e => (Raise e, w)
  | Yield payload filehandle' =>
      (parse_record payload record_id;;
       parse_sss_from filehandle' (record_id + 1)) w
  end.
Proof.
  unfold parse_sss_from at 1. simpl.
  destruct (records_gen filehandle) as [p fh'| |e] eqn:Hg; try reflexivity.
  apply records_gen_shrinks in Hg.
  unfold mbind, M_bind.
  destruct (parse_record p record_id w) as [[[]|e] w']; [|reflexivity].
  apply parse_sss_fuel_irrelevant; lia.
Qed.

(** ** The frame reader at the end of the stream and at the checksum *)

Lemma checksum_payload_mod (payload : list byte) :
  checksum_payload payload = py_sum payload mod 65536.
Proof.
  unfold checksum_payload. change 0xffff with (Z.ones 16).
  rewrite Z.land_ones by lia. reflexivity.
Qed.

Lemma records_gen_header (b0 b1 b2 b3 b4 b5 : byte) (rest : list byte) :
  let header := [b0; b1; b2; b3; b4; b5] in
  let n := Z.to_nat (header_length header) in
  records_gen (header ++ rest) =
  if header_length header =? 0 then records_gen rest
  else if header_checksum header =? checksum_payload (take n rest)
       then Yield (take n rest) (drop n rest)
       else records_gen (drop n rest).
Proof. cbv zeta. rewrite records_gen_unfold. reflexivity. Qed.

Lemma records_gen_partial (filehandle : list byte) :
  (0 < length filehandle < 6)%nat ->
  records_gen filehandle = GenRaise struct_error.
Proof.
  intros H. rewrite records_gen_unfold. unfold records_gen_body.
  destruct filehandle as [|b fh]; [simpl in H; lia|].
  destruct (Nat.ltb_spec (length (b :: fh)) 6); [reflexivity | lia].
Qed.

(** C3, counterexample: one byte left at a record boundary is fewer than
    six, and the reader does not end the stream: unpacking the partial header
    raises [struct.error], which leaves [parse_sss]. *)
Lemma C3_counterexample :
  (length [x00] < 6)%nat
  /\ records_gen [x00] = GenRaise struct_error
  /\ decode_stream [x00] initial_statics = (Raise struct_error, World initial_statics []).
Proof. repeat split. simpl. lia. Qed.

(** C3, as amended: with fewer than six bytes left at a record boundary the
    reader ends the stream cleanly, with no further row and no error, exactly
    when no byte at all is left; a partial header of one to five bytes is a
    truncated stream: decoding stops with [struct.error], no further row
    being written. *)
Theorem C3_end_of_stream (filehandle : list byte) (record_id : Z) (w : world) :
  (length filehandle < 6)%nat ->
  (filehandle = [] ->
     records_gen filehandle = StopIteration
     /\ parse_sss_from filehandle record_id w = (Ok tt, w))
  /\ (filehandle <> [] ->
     records_gen filehandle = GenRaise struct_error
     /\ parse_sss_from filehandle record_id w = (Raise struct_error, w)).
Proof.
  intros Hlen. split.
  - intros ->. split; reflexivity.
  - intros Hne.
    assert (Hg : records_gen filehandle = GenRaise struct_error).
    { apply records_gen_partial. destruct filehandle; [congruence | cbn [length] in *; lia]. }
    split; [exact Hg|].
    rewrite parse_sss_from_unfold, Hg. reflexivity.
Qed.

Lemma C3_end_of_stream_witness :
  records_gen [] = StopIteration
  /\ parse_sss_from [] 1 (World initial_statics []) = (Ok tt, World initial_statics []).
Proof.
  refine (proj1 (C3_end_of_stream [] 1 (World initial_statics []) _) eq_refl).
  simpl. lia.
Defined.




(** ** Rescaling *)

Lemma rescale_split (v : Z) :
  0 <= v <= 65535 ->
  Z.shiftr v 14 = v / 16384 /\ Z.land v 0x3fff = v mod 16384
  /\ 0 <= Z.shiftr v 14 <= 3 /\ 0 <= Z.land v 0x3fff <= 16383.
Proof.
  intros Hv.
  assert (H1 : Z.shiftr v 14 = v / 16384).
  { rewrite Z.shiftr_div_pow2 by lia. reflexivity. }
  assert (H2 : Z.land v 0x3fff = v mod 16384).
  { change 0x3fff with (Z.ones 14). rewrite Z.land_ones by lia. reflexivity. }
  rewrite H1, H2.
  pose proof (Z.mod_pos_bound v 16384 ltac:(lia)).
  assert (0 <= v / 16384) by (apply Z.div_pos; lia).
  assert (v / 16384 < 4) by (apply Z.div_lt_upper_bound; lia).
  repeat split; lia.
Qed.

Lemma rescale_value_total (v : Z) : exists r, rescale_value v = Ok r.
Proof.
  unfold rescale_value, py_pow10.
  destruct (0 <=? - Z.shiftr v 14); simpl; eauto.
Qed.

Lemma rescale_at (key : string) (data : odict) (v : Z) (r : value) :
  od_get key data = Some (VInt v) ->
  rescale_value v = Ok r ->
  rescale key data = Ok (od_set key r data).
Proof.
  intros Hk Hr. unfold rescale, od_getitem. rewrite Hk. simpl.
  rewrite Hr. reflexivity.
Qed.

(** C5: for a 16-bit raw magnitude [v] the rescale transform stores the
    product of [10 ** -(v >> 14)] and [v & 0x3fff], computed as Python
    computes it (an [int] when the exponent is 0, a binary64 product
    otherwise); the exponent is the value of the top two bits and lies in
    0..3, the mantissa is the low 14 bits; [0x4064] rescales to [10.0]. *)
Theorem C5_rescale_law (v : Z) :
  0 <= v <= 65535 ->
  let e := Z.shiftr v 14 in
  let m := Z.land v 0x3fff in
  (0 <= e <= 3 /\ 0 <= m <= 16383 /\ v = e * 2 ^ 14 + m
   /\ e = 2 * Z.b2z (Z.testbit v 15) + Z.b2z (Z.testbit v 14))
  /\ rescale_value v = py_mul (py_pow10 (- e)) (VInt m)
  /\ (e = 0 -> rescale_value v = Ok (VInt m))
  /\ (0 < e -> rescale_value v =
        Ok (VFloat (PrimFloat.mul (PrimFloat.div 1 (Z_to_float (10 ^ e)))
                                  (Z_to_float m))))
  /\ (forall key data, od_get key data = Some (VInt v) ->
        exists r, rescale_value v = Ok r
                  /\ rescale key data = Ok (od_set key r data))
  /\ rescale_value 0x4064 = Ok (VFloat 10).
Proof.
  intros Hv e m.
  destruct (rescale_split v Hv) as (He & Hm & Her & Hmr).
  fold e in He, Her. fold m in Hm, Hmr.
  split; [|split; [|split; [|split; [|split]]]].
  - repeat split; try lia.
    + rewrite He, Hm. pose proof (Z.div_mod v 16384 ltac:(lia)). lia.
    + assert (H0 : Z.testbit v 14 = Z.testbit e 0).
      { unfold e. rewrite Z.shiftr_spec by lia. reflexivity. }
      assert (H1 : Z.testbit v 15 = Z.testbit e 1).
      { unfold e. rewrite Z.shiftr_spec by lia. reflexivity. }
      rewrite H0, H1.
      assert (Hc : e = 0 \/ e = 1 \/ e = 2 \/ e = 3) by lia.
      destruct Hc as [-> | [-> | [-> | ->]]]; reflexivity.
  - reflexivity.
  - intros E. unfold rescale_value. fold e m. rewrite E. simpl.
    f_equal. f_equal. lia.
  - intros E. unfold rescale_value, py_pow10. fold e m.
    destruct (Z.leb_spec 0 (- e)) as [|_]; [lia|].
    rewrite Z.opp_involutive. reflexivity.
  - intros key data Hk. destruct (rescale_value_total v) as [r Hr].
    exists r. split; [exact Hr | eapply rescale_at; eassumption].
  - vm_compute. reflexivity.
Qed.

Lemma C5_rescale_law_witness :
  rescale_value 0x4003 =
  Ok (VFloat (PrimFloat.mul (PrimFloat.div 1 (Z_to_float (10 ^ Z.shiftr 0x4003 14)))
                            (Z_to_float (Z.land 0x4003 0x3fff)))).
Proof.
  refine (proj1 (proj2 (proj2 (proj2 (C5_rescale_law 0x4003 _)))) _).
  - lia.
  - reflexivity.
Defined.

(** ** Sub-records with a pass flag or a sentinel *)

Lemma all_from_spec (p : Z -> bool) n : forall v x,
  all_from n v p = true -> v <= x < v + Z.of_nat n -> p x = true.
Proof.
  induction n as [|n IH]; intros v x H Hx; [lia|].
  simpl in H. apply andb_true_iff in H as [Hv Hn].
  destruct (Z.eq_dec x v) as [->|Hne]; [exact Hv|].
  apply (IH (v + 1)); [exact Hn | lia].
Qed.

Lemma zero_iff_mantissa_all :
  all_from (Z.to_nat 65536) 0 zero_iff_mantissa = true.
Proof. vm_compute. reflexivity. Qed.

Lemma rescale_zero (v : Z) (r : value) :
  0 <= v <= 65535 ->
  rescale_value v = Ok r ->
  (py_eq_zero r = true <-> Z.land v 0x3fff = 0).
Proof.
  intros Hv Hr.
  pose proof (all_from_spec _ _ _ v zero_iff_mantissa_all) as H.
  rewrite Z2Nat.id in H by lia. specialize (H ltac:(lia)).
  unfold zero_iff_mantissa in H. rewrite Hr in H.
  apply Bool.eqb_prop in H. rewrite H. apply Z.eqb_eq.
Qed.

(** The decoded dictionaries of the classes that rescale a 16-bit field. *)
Section Unpacked.
Variables (c p hi lo hi' lo' : byte).
Variables (r r' : value).
Hypothesis Hr : rescale_value (be_int [hi; lo]) = Ok r.
Hypothesis Hr' : rescale_value (be_int [hi'; lo']) = Ok r'.

Let sentinel (x : value) : value :=
  if py_eq_zero x then VStr "(no result)" else x.

Ltac run_unpack :=
  unfold unpack, Sdb_unpack, Sdb_unpack_into, struct_unpack; cbn -[rescale_value be_int byte_val];
  unfold rescale, passed; cbn -[rescale_value be_int byte_val];
  rewrite ?Hr, ?Hr'; cbn -[rescale_value be_int byte_val];
  rewrite ?Hr, ?Hr'; cbn -[rescale_value be_int byte_val].

Lemma unpack_EarthResistanceTest :
  unpack SSSEarthResistanceTest [hi; lo] = Ok [("resistance", r)].
Proof. run_unpack. reflexivity. Qed.

Lemma unpack_EarthResistanceTestv2 :
  unpack SSSEarthResistanceTestv2 [c; p; hi; lo] =
  Ok [("current", VInt (byte_val c)); ("pass", VBool (byte_val p =? 1));
      ("resistance", r)].
Proof. run_unpack. reflexivity. Qed.

Lemma unpack_EarthInsulationTest :
  unpack SSSEarthInsulationTest [hi; lo] = Ok [("resistance", r)].
Proof. run_unpack. reflexivity. Qed.

Lemma unpack_EarthInsulationTestv2 :
  unpack SSSEarthInsulationTestv2 [p; hi; lo] =
  Ok [("pass", VBool (byte_val p =? 1)); ("resistance", r)].
Proof. run_unpack. reflexivity. Qed.

Lemma unpack_CurrentTest :
  unpack SSSCurrentTest [hi; lo] = Ok [("current", r)].
Proof. run_unpack. reflexivity. Qed.

Lemma unpack_CurrentTestv2 :
  unpack SSSCurrentTestv2 [p; hi; lo] =
  Ok [("pass", VBool (byte_val p =? 1)); ("current", r)].
Proof. run_unpack. reflexivity. Qed.

Lemma unpack_PowerLeakTest :
  unpack SSSPowerLeakTest [hi; lo; hi'; lo'] =
  Ok [("leakage", r); ("load", r')].
Proof. run_unpack. reflexivity. Qed.

Lemma unpack_PowerLeakTestv2 :
  unpack SSSPowerLeakTestv2 [p; hi; lo; hi'; lo'] =
  Ok [("pass", VBool (negb (byte_val p =? 0))); ("leakage", r); ("load", r')].
Proof. run_unpack. reflexivity. Qed.

Lemma unpack_ContinuityTest :
  unpack SSSContinuityTest [hi; lo] = Ok [("resistance", sentinel r)].
Proof.
  run_unpack. unfold no_result, sentinel. cbn -[rescale_value be_int byte_val].
  destruct (py_eq_zero r); reflexivity.
Qed.

Lemma unpack_ContinuityTestv2 :
  unpack SSSContinuityTestv2 [p; hi; lo] =
  Ok [("pass", VBool (byte_val p =? 1)); ("resistance", sentinel r)].
Proof.
  run_unpack. unfold no_result, sentinel. cbn -[rescale_value be_int byte_val].
  destruct (py_eq_zero r); reflexivity.
Qed.
End Unpacked.

(** C9: a continuity sub-record, of either version, exposes "(no result)"
    for a resistance whose rescaled value equals zero, which happens
    exactly when the mantissa is zero, and the rescaled number itself
    otherwise. *)
Theorem C9_continuity_sentinel (p hi lo : byte) :
  let v := be_int [hi; lo] in
  exists r,
    rescale_value v = Ok r
    /\ (py_eq_zero r = true <-> Z.land v 0x3fff = 0)
    /\ TESTS_VERSION_1 !! 0xf8 = Some ("Continuity (F8)", SSSContinuityTest)
    /\ merged_tests !! 0xf8 = Some ("Continuity v2 (F8)", SSSContinuityTestv2)
    /\ unpack SSSContinuityTest [hi; lo] =
       Ok [("resistance", if py_eq_zero r then VStr "(no result)" else r)]
    /\ unpack SSSContinuityTestv2 [p; hi; lo] =
       Ok [("pass", VBool (byte_val p =? 1));
           ("resistance", if py_eq_zero r then VStr "(no result)" else r)].
Proof.
  intros v. destruct (rescale_value_total v) as [r Hr]. exists r.
  split; [exact Hr|].
  split; [apply rescale_zero; [apply be_int_2_range | exact Hr]|].
  split; [reflexivity|]. split; [reflexivity|].
  split.
  - apply unpack_ContinuityTest. exact Hr.
  - apply unpack_ContinuityTestv2. exact Hr.
Qed.

Lemma length_3_inv {A} (l : list A) :
  length l = 3%nat -> exists a b c, l = [a; b; c].
Proof. destruct l as [|a [|b [|c [|]]]]; try discriminate. eauto. Qed.

Lemma length_4_inv {A} (l : list A) :
  length l = 4%nat -> exists a b c d, l = [a; b; c; d].
Proof. destruct l as [|a [|b [|c [|d [|]]]]]; try discriminate. eauto. Qed.

Lemma length_5_inv {A} (l : list A) :
  length l = 5%nat -> exists a b c d e, l = [a; b; c; d; e].
Proof. destruct l as [|a [|b [|c [|d [|e [|]]]]]]; try discriminate. eauto 6. Qed.

(** C10: in a version-2 earth-resistance, earth-insulation, leakage-current
    or continuity sub-record the exposed pass flag is true exactly when the
    raw pass byte is 1; in a version-2 load/leakage sub-record it is true
    exactly when the raw pass byte is not 0. *)
Theorem C10_pass_flag (code : Z) (label : string) (cls : sss_class)
    (structure : list byte) (p : Z) :
  TESTS_VERSION_2 !! code = Some (label, cls) ->
  length structure = class_len cls ->
  raw_byte "pass" cls structure = Some p ->
  exists d,
    unpack cls structure = Ok d
    /\ Z_in code [0xf2; 0xf3; 0xf4; 0xf5; 0xf6; 0xf7; 0xf8] = true
    /\ (code <> 0xf6 -> od_get "pass" d = Some (VBool (p =? 1)))
    /\ (code = 0xf6 -> od_get "pass" d = Some (VBool (negb (p =? 0)))).
Proof.
  intros Hreg Hlen Hraw.
  apply elem_of_list_to_map_2 in Hreg.
  repeat (apply elem_of_cons in Hreg as [Hreg|Hreg]);
    try (apply elem_of_nil in Hreg; contradiction);
    injection Hreg as -> -> ->; try discriminate Hraw.
  - (* 0xf2 *)
    apply length_4_inv in Hlen as (c & b & hi & lo & ->).
    injection Hraw as <-.
    destruct (rescale_value_total (be_int [hi; lo])) as [r Hr].
    eexists. split; [apply unpack_EarthResistanceTestv2; exact Hr|].
    split; [reflexivity|]. split; intros Hc; first [reflexivity | congruence].
  - (* 0xf3 *)
    apply length_3_inv in Hlen as (b & hi & lo & ->).
    injection Hraw as <-.
    destruct (rescale_value_total (be_int [hi; lo])) as [r Hr].
    eexists. split; [apply unpack_EarthInsulationTestv2; exact Hr|].
    split; [reflexivity|]. split; intros Hc; first [reflexivity | congruence].
  - (* 0xf4 *)
    apply length_3_inv in Hlen as (b & hi & lo & ->).
    injection Hraw as <-.
    destruct (rescale_value_total (be_int [hi; lo])) as [r Hr].
    eexists. split; [apply unpack_CurrentTestv2; exact Hr|].
    split; [reflexivity|]. split; intros Hc; first [reflexivity | congruence].
  - (* 0xf5 *)
    apply length_3_inv in Hlen as (b & hi & lo & ->).
    injection Hraw as <-.
    destruct (rescale_value_total (be_int [hi; lo])) as [r Hr].
    eexists. split; [apply unpack_CurrentTestv2; exact Hr|].
    split; [reflexivity|]. split; intros Hc; first [reflexivity | congruence].
  - (* 0xf6 *)
    apply length_5_inv in Hlen as (b & hi & lo & hi' & lo' & ->).
    injection Hraw as <-.
    destruct (rescale_value_total (be_int [hi; lo])) as [r Hr].
    destruct (rescale_value_total (be_int [hi'; lo'])) as [r' Hr'].
    eexists. split; [apply unpack_PowerLeakTestv2; eassumption|].
    split; [reflexivity|]. split; intros Hc; first [reflexivity | congruence].
  - (* 0xf7 *)
    apply length_3_inv in Hlen as (b & hi & lo & ->).
    injection Hraw as <-.
    destruct (rescale_value_total (be_int [hi; lo])) as [r Hr].
    eexists. split; [apply unpack_CurrentTestv2; exact Hr|].
    split; [reflexivity|]. split; intros Hc; first [reflexivity | congruence].
  - (* 0xf8 *)
    apply length_3_inv in Hlen as (b & hi & lo & ->).
    injection Hraw as <-.
    destruct (rescale_value_total (be_int [hi; lo])) as [r Hr].
    eexists. split; [apply unpack_ContinuityTestv2; exact Hr|].
    split; [reflexivity|]. split; intros Hc; first [reflexivity | congruence].
Qed.

Lemma C10_pass_flag_witness :
  exists d,
    unpack SSSCurrentTestv2 [x02; x40; x64] = Ok d
    /\ Z_in 0xf4 [0xf2; 0xf3; 0xf4; 0xf5; 0xf6; 0xf7; 0xf8] = true
    /\ (0xf4 <> 0xf6 -> od_get "pass" d = Some (VBool (2 =? 1)))
    /\ (0xf4 = 0xf6 -> od_get "pass" d = Some (VBool (negb (2 =? 0)))).
Proof.
  apply (C10_pass_flag 0xf4 "Substitute Leakage v2 (F4)" SSSCurrentTestv2
           [x02; x40; x64] 2); reflexivity.
Defined.

(** C7, counterexample: the version-1 earth-resistance layout holding the
    16-bit field 0x8064 (uppermost bit set, low 15 bits 0x0064) exposes no
    pass flag, and its magnitude is the rescaling of the whole field, bit 15
    included in the exponent; the version-2 layout given the flag 1 and the
    magnitude 0x0064 exposes another pair. *)
Lemma C7_counterexample :
  Z.testbit (be_int [x80; x64]) 15 = true
  /\ Z.land (be_int [x80; x64]) 0x7fff = be_int [x00; x64]
  /\ unpack SSSEarthResistanceTest [x80; x64] = Ok [("resistance", VFloat 1)]
  /\ od_get "pass" [("resistance", VFloat 1)] = None
  /\ unpack SSSEarthResistanceTestv2 [x00; x01; x00; x64] =
     Ok [("current", VInt 0); ("pass", VBool true); ("resistance", VInt 100)].
Proof. repeat split; vm_compute; reflexivity. Qed.

(** C7, as amended: no layout splits the uppermost bit off a 16-bit field;
    in both versions the whole field is rescaled.  A version-1 layout exposes
    the rescaled magnitudes and no pass flag; the version-2 layout of the same
    kind exposes the same magnitudes for the same 16-bit fields, and a pass
    flag taken from the separate byte before them. *)
Theorem C7_layouts (c p hi lo hi' lo' : byte) :
  exists r r',
    rescale_value (be_int [hi; lo]) = Ok r
    /\ rescale_value (be_int [hi'; lo']) = Ok r'
    /\ (unpack SSSEarthResistanceTest [hi; lo] = Ok [("resistance", r)]
        /\ unpack SSSEarthResistanceTestv2 [c; p; hi; lo] =
           Ok [("current", VInt (byte_val c)); ("pass", VBool (byte_val p =? 1));
               ("resistance", r)])
    /\ (unpack SSSEarthInsulationTest [hi; lo] = Ok [("resistance", r)]
        /\ unpack SSSEarthInsulationTestv2 [p; hi; lo] =
           Ok [("pass", VBool (byte_val p =? 1)); ("resistance", r)])
    /\ (unpack SSSCurrentTest [hi; lo] = Ok [("current", r)]
        /\ unpack SSSCurrentTestv2 [p; hi; lo] =
           Ok [("pass", VBool (byte_val p =? 1)); ("current", r)])
    /\ (unpack SSSPowerLeakTest [hi; lo; hi'; lo'] =
           Ok [("leakage", r); ("load", r')]
        /\ unpack SSSPowerLeakTestv2 [p; hi; lo; hi'; lo'] =
           Ok [("pass", VBool (negb (byte_val p =? 0))); ("leakage", r);
               ("load", r')])
    /\ (let s := if py_eq_zero r then VStr "(no result)" else r in
        unpack SSSContinuityTest [hi; lo] = Ok [("resistance", s)]
        /\ unpack SSSContinuityTestv2 [p; hi; lo] =
           Ok [("pass", VBool (byte_val p =? 1)); ("resistance", s)]).
Proof.
  destruct (rescale_value_total (be_int [hi; lo])) as [r Hr].
  destruct (rescale_value_total (be_int [hi'; lo'])) as [r' Hr'].
  exists r, r'. split; [exact Hr|]. split; [exact Hr'|].
  split; [split; [apply unpack_EarthResistanceTest | apply unpack_EarthResistanceTestv2]; exact Hr|].
  split; [split; [apply unpack_EarthInsulationTest | apply unpack_EarthInsulationTestv2]; exact Hr|].
  split; [split; [apply unpack_CurrentTest | apply unpack_CurrentTestv2]; exact Hr|].
  split; [split; [apply unpack_PowerLeakTest | apply unpack_PowerLeakTestv2]; assumption|].
  cbv zeta.
  split; [apply unpack_ContinuityTest | apply unpack_ContinuityTestv2]; exact Hr.
Qed.

(** ** What report_record does to the counters *)

Lemma keeps_ret {A} (a : A) : keeps_test_id (mret a).
Proof. intros w r w' [= _ <-]. reflexivity. Qed.

Lemma keeps_raise {A} (e : exn) : keeps_test_id (raise (A := A) e).
Proof. intros w r w' [= _ <-]. reflexivity. Qed.

Lemma keeps_lift {A} (x : res A) : keeps_test_id (lift x).
Proof. intros w r w' [= _ <-]. reflexivity. Qed.

Lemma keeps_emit (c : wcall) : keeps_test_id (emit c).
Proof. intros w r w' [= _ <-]. reflexivity. Qed.

Lemma keeps_get_static : keeps_test_id get_static.
Proof. intros w r w' [= _ <-]. reflexivity. Qed.

Lemma keeps_bind {A B} (m : M A) (k : A -> M B) :
  keeps_test_id m -> (forall a, keeps_test_id (k a)) -> keeps_test_id (m ≫= k).
Proof.
  intros Hm Hk w r w'. unfold mbind, M_bind.
  destruct (m w) as [[a|e] w1] eqn:E.
  - intros H. apply Hk in H. apply Hm in E. congruence.
  - intros [= _ <-]. eapply Hm; eassumption.
Qed.

Create HintDb keeps.
#[local] Hint Resolve keeps_ret keeps_raise keeps_lift keeps_emit
  keeps_get_static : keeps.

Lemma keeps_user_data_loop record_id data_values : forall indx,
  keeps_test_id (user_data_loop record_id indx data_values).
Proof.
  induction data_values as [|v rest IH]; intros indx; simpl; [auto with keeps|].
  apply keeps_bind; [|intros _; apply IH].
  destruct (py_bool v); [|auto with keeps].
  intros w r w'. unfold mbind, M_bind, get_static, lift, set_static, emit.
  repeat (case_match; simplify_eq; simpl in * ); intros; simplify_eq; reflexivity.
Qed.

Lemma keeps_report_record record_id current_test code tid :
  keeps_test_id (report_record record_id current_test code tid).
Proof.
  unfold report_record.
  destruct (Z_in code _).
  { apply keeps_bind; [|intros _; apply keeps_bind; auto with keeps].
    destruct (code =? 0xfe).
    { repeat (case_match; auto with keeps). }
    destruct (code =? 0xe0).
    { intros w r w' [= _ <-]. reflexivity. }
    destruct (code =? 0xe1).
    { apply keeps_bind; auto with keeps. }
    repeat (case_match; auto with keeps).
    apply keeps_bind; [auto with keeps|intros ?].
    apply keeps_bind; auto with keeps. }
  destruct (is_test_kind code).
  { apply keeps_bind; auto with keeps. }
  destruct (code =? 0xfb); [|auto with keeps].
  apply keeps_bind; [apply keeps_user_data_loop | auto with keeps].
Qed.

Lemma Z_in_not_test_kind code :
  Z_in code [0x01; 0x02; 0x11; 0x12; 0xfe; 0xe0; 0xe1] = true ->
  is_test_kind code = false.
Proof.
  unfold Z_in, is_test_kind. simpl. rewrite !orb_true_iff, !Z.eqb_eq.
  intros H.
  apply orb_false_iff. split; [apply andb_false_iff|apply Z.eqb_neq]; lia.
Qed.

(** The number of tests [report_record] reports as written. *)
Lemma report_record_written record_id current_test code tid w n w' :
  report_record record_id current_test code tid w = (Ok n, w') ->
  n = if is_test_kind code then 1 else 0.
Proof.
  unfold report_record.
  destruct (Z_in code _) eqn:Hin.
  { rewrite (Z_in_not_test_kind _ Hin). unfold mbind, M_bind, mret, M_ret.
    repeat (case_match; simplify_eq); intros; simplify_eq; reflexivity. }
  destruct (is_test_kind code).
  { unfold mbind, M_bind, mret, M_ret, emit. intros; simplify_eq. reflexivity. }
  destruct (code =? 0xfb).
  { unfold mbind, M_bind, mret, M_ret.
    repeat (case_match; simplify_eq); intros; simplify_eq; reflexivity. }
  intros [= <- _]. reflexivity.
Qed.

(** One turn of the walker: the counter, the table and the type code. *)
Lemma parse_step_effect record_id s w s' w' b rest :
  payload s = b :: rest ->
  parse_step record_id s w = (Ok s', w') ->
  test_id (static w') =
    test_id (static w) + (if is_test_kind (byte_val b) then 1 else 0)
  /\ (version s', tests s') = upgrade_check (version s) (tests s) (byte_val b)
  /\ test_type s' = Some (byte_val b).
Proof.
  intros Hp. unfold parse_step. rewrite Hp.
  destruct (upgrade_check _ _ _) as [version1 tests1].
  destruct (tests1 !! byte_val b) as [[label cls]|]; [|discriminate].
  unfold mbind, M_bind, lift, get_static, set_static, mret, M_ret.
  destruct (unpack cls _); [|discriminate].
  destruct (report_record _ _ _ _ _) as [[n|e] w1] eqn:Hr; [|discriminate].
  intros [= <- <-]. simpl.
  pose proof (keeps_report_record _ _ _ _ _ _ _ Hr) as Hk.
  apply report_record_written in Hr. subst n.
  repeat split. lia.
Qed.


(** ** The state machine follows the source *)

Lemma sstep_resume st w l st' w' :
  sstep (st, w) l (st', w') -> resume st w = resume st' w'.
Proof.
  inversion 1; subst; simpl.
  - rewrite parse_sss_from_unfold.
    match goal with H : records_gen _ = _ |- _ => rewrite H end. reflexivity.
  - unfold mbind, M_bind. rewrite walk_unfold.
    match goal with H : loop_cond _ = _ |- _ => rewrite H end.
    unfold mbind, M_bind.
    match goal with H : parse_step _ _ _ = _ |- _ => rewrite H end.
    reflexivity.
  - unfold mbind, M_bind. rewrite walk_unfold.
    match goal with H : loop_cond _ = _ |- _ => rewrite H end.
    reflexivity.
Qed.

Lemma steps_resume x t y :
  steps x t y -> resume x.1 x.2 = resume y.1 y.2.
Proof.
  induction 1 as [|[st w] l [st' w'] t z Hs _ IH]; [reflexivity|].
  simpl in *. rewrite <- IH. eapply sstep_resume; eassumption.
Qed.

Lemma steps_app x t1 t2 z :
  steps x (t1 ++ t2) z -> exists y, steps x t1 y /\ steps y t2 z.
Proof.
  revert x. induction t1 as [|l t1 IH]; intros x H; simpl in H.
  - exists x. split; [constructor | exact H].
  - inversion H; subst.
    match goal with H' : steps _ (t1 ++ t2) _ |- _ =>
      destruct (IH _ H') as (y' & H1 & H2) end.
    exists y'. split; [econstructor; eassumption | exact H2].
Qed.

(** The machine is deterministic: the source has one way to go on. *)
Lemma sstep_deterministic x l1 y1 l2 y2 :
  sstep x l1 y1 -> sstep x l2 y2 -> l1 = l2 /\ y1 = y2.
Proof.
  inversion 1; subst; inversion 1; subst; try congruence.
  - split; congruence.
  - split; congruence.
  - split; reflexivity.
Qed.

Lemma sstep_counters st w l st' w' :
  sstep (st, w) l (st', w') ->
  next_record_id st' = next_record_id st + counts_record l
  /\ test_id (static w') = test_id (static w) + counts_test l.
Proof.
  inversion 1; subst; simpl.
  - split; lia.
  - match goal with
    | Hp : payload _ = _, Hs : parse_step _ _ _ = _ |- _ =>
        destruct (parse_step_effect _ _ _ _ _ _ _ Hp Hs) as (Ht & _)
    end.
    split; lia.
  - split; lia.
Qed.

Lemma steps_counters x t y :
  steps x t y ->
  next_record_id y.1 = next_record_id x.1 + total counts_record t
  /\ test_id (static y.2) = test_id (static x.2) + total counts_test t.
Proof.
  induction 1 as [|[st w] l [st' w'] t z Hs _ IH]; simpl; [lia|].
  apply sstep_counters in Hs. simpl in *. lia.
Qed.

Lemma is_test_kind_spec (code : Z) :
  is_test_kind code = true <-> code = 0x10 \/ 0xf0 <= code <= 0xfa.
Proof.
  unfold is_test_kind.
  rewrite orb_true_iff, andb_true_iff, Z.leb_le, Z.ltb_lt, Z.eqb_eq. lia.
Qed.

(** The counters along a run, and the identifiers its labels carry. *)
Lemma run_counters (st : pstate) (w : world) (t : list label)
    (st' : pstate) (w' : world) :
  steps (st, w) t (st', w') ->
  (next_record_id st' = next_record_id st + total counts_record t
   /\ test_id (static w') = test_id (static w) + total counts_test t)
  /\ (forall t1 l t2, t = t1 ++ l :: t2 ->
        match l with
        | Emitted record_id =>
            record_id = next_record_id st + total counts_record t1
        | Decoded record_id code tid =>
            tid = test_id (static w) + total counts_test t1
            /\ record_id + 1 = next_record_id st + total counts_record t1
            /\ (counts_test l = 1 <-> code = 0x10 \/ 0xf0 <= code <= 0xfa)
            /\ (counts_test l = 0 <-> ~ (code = 0x10 \/ 0xf0 <= code <= 0xfa))
        | Finished => True
        end)
  /\ resume st w = resume st' w'.
Proof.
  intros Hrun. split; [|split].
  - apply (steps_counters _ _ _ Hrun).
  - intros t1 l t2 ->.
    apply steps_app in Hrun as ([st1 w1] & H1 & H2).
    apply steps_counters in H1. simpl in H1. destruct H1 as [Hr Ht].
    inversion H2 as [|? ? ? ? ? Hs _]; subst.
    inversion Hs; subst; simpl in *.
    + lia.
    + split; [lia|]. split; [lia|].
      rewrite <- is_test_kind_spec.
      destruct (is_test_kind (byte_val b)); split; split;
        try (intros; congruence); try lia; try (intros []; reflexivity).
    + exact I.
  - apply (steps_resume _ _ _ Hrun).
Qed.

(** ** The version upgrade *)

Lemma upgrade_check_first (code : Z) :
  code = 0x11 \/ code = 0x12 ->
  upgrade_check 1 TESTS_VERSION_1 code = (2, merged_tests).
Proof. intros [-> | ->]; reflexivity. Qed.

Lemma upgrade_check_later tests code :
  upgrade_check 2 tests code = (2, tests).
Proof. reflexivity. Qed.

Lemma sstep_upgraded x l y :
  sstep x l y -> counts_record l = 0 -> upgraded x.1 -> upgraded y.1.
Proof.
  inversion 1; subst; simpl; intros Hl Hu; try discriminate; [|exact I].
  destruct Hu as [Hv Ht].
  match goal with
  | Hp : payload _ = _, Hs : parse_step _ _ _ = _ |- _ =>
      destruct (parse_step_effect _ _ _ _ _ _ _ Hp Hs) as (_ & Hu & _)
  end.
  rewrite Hv, Ht, upgrade_check_later in Hu. split; congruence.
Qed.

Lemma steps_upgraded x t y :
  steps x t y -> same_record t -> upgraded x.1 -> upgraded y.1.
Proof.
  induction 1 as [|x l y t z Hs _ IH]; intros Ht Hu; [exact Hu|].
  inversion Ht; subst. apply IH; [assumption|].
  eapply sstep_upgraded; eassumption.
Qed.

Lemma merged_tests_lookup (code : Z) :
  merged_tests !! code =
  match TESTS_VERSION_2 !! code with
  | Some entry => Some entry
  | None => TESTS_VERSION_1 !! code
  end.
Proof.
  unfold merged_tests, dict_update. rewrite lookup_union.
  destruct (TESTS_VERSION_2 !! code), (TESTS_VERSION_1 !! code); reflexivity.
Qed.

(** C1, counterexample: in the stream of a record with a 0x11 sub-record
    and then a record with an earth-resistance sub-record, the second record
    is decoded with the version-1 table: its row holds the one value of the
    version-1 layout, where the merged table names the version-2 class, which
    cannot even be unpacked from the three bytes that follow the type code. *)
Lemma C1_counterexample :
  decode_stream (visual_v2_record ++ earth_record) initial_statics =
    (Ok tt,
     World (Statics 2 [VInt 0; VInt 1; VInt 2; VInt 3] [0; 0; 0; 0; 0; 0])
       [write_row 0 1 1
          [Cell (VStr ""); Cell (VDatetime 2019 2 1 12 30); Cell (VStr "");
           Cell (VStr ""); Cell (VStr ""); Cell (VStr ""); Cell (VStr "")];
        write 0 1 0 (Cell (VInt 1));
        write_row 1 1 0
          [Cell (VInt 1); Cell (VInt 2); Cell (VInt 0xf2); Cell (VFloat 10)]])
  /\ unpack SSSEarthResistanceTest [x40; x64] = Ok [("resistance", VFloat 10)]
  /\ merged_tests !! 0xf2 = Some ("Earth Resistance v2 (F2)", SSSEarthResistanceTestv2)
  /\ unpack SSSEarthResistanceTestv2
       (take (class_len SSSEarthResistanceTestv2) [x40; x64; xff])
     = Raise struct_error.
Proof. repeat split; vm_compute; reflexivity. Qed.

(** C1, as amended: the upgrade is one-way within a record.  Once a 0x11 or
    0x12 type code has been met in a record, that sub-record and every later
    sub-record of the same record are looked up in the merged table, in which
    the version-2 entries override the version-1 entries, and the table does
    not go back to version 1 before the record ends; the walker of the next
    record starts from the version-1 table again. *)
Theorem C1_upgrade_within_record (filehandle : list byte) (record_id : Z)
    (s : walker) (w : world) (code tid : Z) (x y : pstate * world)
    (t : list label) :
  version s = 1 -> tests s = TESTS_VERSION_1 ->
  sstep (Walking filehandle record_id s, w) (Decoded record_id code tid) x ->
  code = 0x11 \/ code = 0x12 ->
  steps x t y ->
  upgrade_check (version s) (tests s) code = (2, merged_tests)
  /\ (same_record t ->
      upgraded y.1
      /\ forall fh rid s', y.1 = Walking fh rid s' ->
           forall c, upgrade_check (version s') (tests s') c = (2, merged_tests))
  /\ (forall c, merged_tests !! c =
        match TESTS_VERSION_2 !! c with
        | Some entry => Some entry
        | None => TESTS_VERSION_1 !! c
        end)
  /\ (forall l z, sstep y l z -> counts_record l = 1 ->
        exists fh rid payload,
          z.1 = Walking fh rid (initial_walker payload)
          /\ version (initial_walker payload) = 1
          /\ tests (initial_walker payload) = TESTS_VERSION_1).
Proof.
  intros Hv Ht Hstep Hcode Hrun.
  assert (Hfirst : upgrade_check (version s) (tests s) code = (2, merged_tests)).
  { rewrite Hv, Ht. apply upgrade_check_first, Hcode. }
  split; [exact Hfirst|]. split; [|split].
  - intros Hsame.
    assert (Hx : upgraded x.1).
    { inversion Hstep; subst. simpl.
      match goal with
      | Hp : payload _ = _, Hs : parse_step _ _ _ = _ |- _ =>
          destruct (parse_step_effect _ _ _ _ _ _ _ Hp Hs) as (_ & Hu & _)
      end.
      rewrite Hfirst in Hu. split; congruence. }
    pose proof (steps_upgraded _ _ _ Hrun Hsame Hx) as Hy.
    split; [exact Hy|].
    intros fh rid s' E c. rewrite E in Hy. destruct Hy as [-> ->].
    apply upgrade_check_later.
  - apply merged_tests_lookup.
  - intros l z Hs Hl. inversion Hs; subst; simpl in Hl; try discriminate.
    simpl. eauto 6.
Qed.

Lemma C1_upgrade_within_record_witness :
  exists y : pstate * world, upgraded y.1
  /\ exists fh rid s', y.1 = Walking fh rid s'
       /\ upgrade_check (version s') (tests s') 0xf2 = (2, merged_tests).
Proof.
  set (p := [x11] ++ visual_fields ++ [xf2; x00; x01; x40; x64; xff]).
  set (w := World initial_statics []).
  eassert (H1 : sstep (Walking [] 1 (initial_walker p), w) (Decoded 1 0x11 1) (_, _)).
  { eapply (step_decode [] 1 (initial_walker p) w x11); vm_compute; reflexivity. }
  match type of H1 with
  | sstep _ _ (Walking _ _ ?s1, ?w1) =>
      eassert (H2 : steps (Walking [] 1 s1, w1) [Decoded 1 0xf2 1] (_, _));
      [eapply steps_cons; [|apply steps_nil];
       eapply (step_decode [] 1 s1 w1 xf2); vm_compute; reflexivity|]
  end.
  destruct (C1_upgrade_within_record [] 1 (initial_walker p) w 0x11 1 _ _ _
              eq_refl eq_refl H1 (or_introl eq_refl) H2) as (_ & H & _).
  destruct H as [Hu Hc].
  { repeat constructor. }
  eexists. split; [exact Hu|].
  eexists _, _, _. split; [reflexivity|]. eapply Hc. reflexivity.
Defined.

(** ** Unknown type codes *)

(** C6, counterexample: a stream whose first record holds the unregistered
    type code 0x03 is followed by a record that the frame reader accepts and
    that decodes to one row on its own; decoding the stream raises
    [KeyError] and writes nothing: the second record is not decoded. *)
Lemma C6_counterexample :
  let unknown := [x00; x01; x00; x00; x00; x03] ++ [x03] in
  let valid := [x00; x02; x00; x00; x01; xef] ++ [xf0; xff] in
  TESTS_VERSION_1 !! 0x03 = None
  /\ records_gen valid = Yield [xf0; xff] []
  /\ decode_stream valid initial_statics =
       (Ok tt,
        World (Statics 2 [VInt 0; VInt 1; VInt 2; VInt 3] [0; 0; 0; 0; 0; 0])
          [write_row 1 1 0 [Cell (VInt 1); Cell (VInt 1); Cell (VInt 0xf0)]])
  /\ decode_stream (unknown ++ valid) initial_statics =
       (Raise (KeyError 0x03), World initial_statics []).
Proof. repeat split; vm_compute; reflexivity. Qed.

(** C6, as amended: when the walker meets a sub-record whose type code is
    absent from the active table, it fails with [KeyError]; the error ends
    the decoding of the stream: neither the remaining sub-records of the
    record nor any later record is decoded, and what was written before stays
    as it is. *)
Theorem C6_unknown_type (st : pstate) (w : world) (t : list label)
    (filehandle : list byte) (record_id : Z) (s : walker) (w' : world)
    (b : byte) (rest : list byte) :
  steps (st, w) t (Walking filehandle record_id s, w') ->
  loop_cond s = true ->
  payload s = b :: rest ->
  (upgrade_check (version s) (tests s) (byte_val b)).2 !! byte_val b = None ->
  parse_step record_id s w' = (Raise (KeyError (byte_val b)), w')
  /\ walk record_id s w' = (Raise (KeyError (byte_val b)), w')
  /\ resume st w = (Raise (KeyError (byte_val b)), w').
Proof.
  intros Hrun Hc Hp Hnone.
  assert (Hstep : parse_step record_id s w' = (Raise (KeyError (byte_val b)), w')).
  { unfold parse_step. rewrite Hp.
    destruct (upgrade_check _ _ _) as [version1 tests1]. simpl in Hnone.
    rewrite Hnone. reflexivity. }
  assert (Hwalk : walk record_id s w' = (Raise (KeyError (byte_val b)), w')).
  { rewrite walk_unfold, Hc. unfold mbind, M_bind. rewrite Hstep. reflexivity. }
  split; [exact Hstep|]. split; [exact Hwalk|].
  pose proof (steps_resume _ _ _ Hrun) as Hres. simpl in Hres.
  rewrite Hres. unfold mbind, M_bind. rewrite Hwalk. reflexivity.
Qed.

Lemma C6_unknown_type_witness :
  parse_sss_from ([x00; x02; x00; x00; x00; xf3] ++ [xf0; x03]
                  ++ [x00; x02; x00; x00; x01; xef] ++ [xf0; xff])
    1 (World initial_statics [])
  = (Raise (KeyError 0x03),
     World (Statics 2 [VInt 0; VInt 1; VInt 2; VInt 3] [0; 0; 0; 0; 0; 0])
       [write_row 1 1 0 [Cell (VInt 1); Cell (VInt 1); Cell (VInt 0xf0)]]).
Proof.
  set (later := [x00; x02; x00; x00; x01; xef] ++ [xf0; xff]).
  set (w := World initial_statics []).
  set (w' := World (Statics 2 [VInt 0; VInt 1; VInt 2; VInt 3] [0; 0; 0; 0; 0; 0])
               [write_row 1 1 0 [Cell (VInt 1); Cell (VInt 1); Cell (VInt 0xf0)]]).
  set (s1 := Walker [x03] (Some 0xf0) 1 TESTS_VERSION_1).
  assert (Hrun : steps
            (AwaitingRecord ([x00; x02; x00; x00; x00; xf3] ++ [xf0; x03] ++ later) 1, w)
            [Emitted 1; Decoded 1 0xf0 1]
            (Walking later 1 s1, w')).
  { eapply steps_cons.
    - apply (step_yield _ 1 w [xf0; x03] later). vm_compute. reflexivity.
    - eapply steps_cons; [|apply steps_nil].
      apply (step_decode later 1 (initial_walker [xf0; x03]) w xf0 [x03] s1 w');
        vm_compute; reflexivity. }
  refine (proj2 (proj2 (C6_unknown_type _ _ _ _ _ _ _ x03 [] Hrun _ _ _)));
    vm_compute; reflexivity.
Defined.

(** ** Two decodings in one process *)

(** C2: the record [f0 ff], decoded twice in one process, each time with a
    new reader and a new workbook, gives its test row the identifier 1 the
    first time and 2 the second time: [parse_record.test_id] is an attribute
    of the function and is never set back, where the record identifier starts
    from 1 in every call of [parse_sss]. *)
Theorem C2_test_id_leaks :
  let stream := [x00; x02; x00; x00; x01; xef] ++ [xf0; xff] in
  let first := decode_stream stream initial_statics in
  let second := decode_stream stream (static first.2) in
  workbook first.2 =
    [write_row 1 1 0 [Cell (VInt 1); Cell (VInt 1); Cell (VInt 0xf0)]]
  /\ workbook second.2 =
    [write_row 1 2 0 [Cell (VInt 2); Cell (VInt 1); Cell (VInt 0xf0)]]
  /\ test_id (static first.2) = 2
  /\ test_id (static second.2) = 3
  /\ workbook first.2 <> workbook second.2.
Proof.
  cbv zeta. repeat split; try (vm_compute; reflexivity).
  vm_compute. discriminate.
Qed.

(** A run for the counters: one record, an overall pass, an earth
    resistance whose field takes the last two bytes of the payload. *)
Lemma counters_run :
  steps
    (AwaitingRecord ([x00; x04; x00; x00; x02; xe1] ++ [xf0; xf2; x00; xff]) 1,
     World initial_statics [])
    [Emitted 1; Decoded 1 0xf0 1; Decoded 1 0xf2 2; Finished]
    (AwaitingRecord [] 2,
     World (Statics 3 [VInt 0; VInt 1; VInt 2; VInt 3] [0; 0; 0; 0; 0; 0])
       [write_row 1 1 0 [Cell (VInt 1); Cell (VInt 1); Cell (VInt 0xf0)];
        write_row 1 2 0 [Cell (VInt 2); Cell (VInt 1); Cell (VInt 0xf2);
                         Cell (VInt 255)]]).
Proof.
  set (w0 := World initial_statics []).
  set (w1 := World (Statics 2 [VInt 0; VInt 1; VInt 2; VInt 3] [0; 0; 0; 0; 0; 0])
               [write_row 1 1 0 [Cell (VInt 1); Cell (VInt 1); Cell (VInt 0xf0)]]).
  set (s1 := Walker [xf2; x00; xff] (Some 0xf0) 1 TESTS_VERSION_1).
  set (s2 := Walker [] (Some 0xf2) 1 TESTS_VERSION_1).
  eapply steps_cons.
  { apply (step_yield _ 1 w0 [xf0; xf2; x00; xff] []). vm_compute. reflexivity. }
  eapply steps_cons.
  { apply (step_decode [] 1 (initial_walker [xf0; xf2; x00; xff]) w0 xf0
             [xf2; x00; xff] s1 w1); vm_compute; reflexivity. }
  eapply steps_cons.
  { eapply (step_decode [] 1 s1 w1 xf2 [x00; xff] s2); vm_compute; reflexivity. }
  eapply steps_cons; [|apply steps_nil].
  apply (step_finish [] 1 s2). reflexivity.
Defined.

Example counters_run_totals :
  next_record_id (AwaitingRecord [] 2) =
    1 + total counts_record [Emitted 1; Decoded 1 0xf0 1; Decoded 1 0xf2 2; Finished]
  /\ 3 = 1 + total counts_test [Emitted 1; Decoded 1 0xf0 1; Decoded 1 0xf2 2; Finished].
Proof. exact (proj1 (run_counters _ _ _ _ _ counters_run)). Qed.

(** ** Every decoding is a run *)




(** * Further properties of the code *)

(** ** Sdb *)

Lemma fmt_size_declared (f : field) :
  size_as_declared f -> fmt_size (field_fmt f) = declared_size f.
Proof.
  destruct f as [[name ty] size]. destruct ty; simpl; [|reflexivity].
  intros [-> | [-> | ->]]; reflexivity.
Qed.

(** X1: when every integer field declares a size of 1, 2 or 4 bytes, the
    length [Sdb] requires is the sum of the declared sizes. *)
Theorem required_length_declared (fields : list field) :
  Forall size_as_declared fields ->
  required_length fields = foldr (fun f n => (declared_size f + n)%nat) 0%nat fields.
Proof.
  unfold required_length, build_format_string.
  induction 1 as [|f fs Hf _ IH]; [reflexivity|].
  simpl. rewrite fmt_size_declared by assumption.
  f_equal. exact IH.
Qed.

Lemma required_length_declared_witness :
  required_length (fields SSSVisualTest) = 86%nat.
Proof.
  rewrite (required_length_declared (fields SSSVisualTest)); [reflexivity|].
  repeat (constructor; [simpl; tauto|]). constructor.
Defined.

Lemma be_int_snoc (bs : list byte) (b : byte) :
  be_int (bs ++ [b]) = 256 * be_int bs + byte_val b.
Proof. unfold be_int. rewrite fold_left_app. reflexivity. Qed.

(** X2: a big-endian field of [n] bytes decodes to an unsigned integer
    below [256 ^ n]. *)
Theorem be_int_bound (bs : list byte) :
  0 <= be_int bs < 256 ^ Z.of_nat (length bs).
Proof.
  induction bs as [|b bs IH] using rev_ind; [change (0 <= 0 < 1); lia|].
  rewrite be_int_snoc, length_app, Nat2Z.inj_add, Z.pow_add_r by lia.
  change (256 ^ Z.of_nat (length [b])) with 256.
  pose proof (byte_val_range b). nia.
Qed.

Lemma struct_items_length (fs : list fmt) (buf : list byte) :
  length (struct_items fs buf) = length fs.
Proof.
  revert buf. induction fs as [|c fs IH]; intros buf; simpl; [reflexivity|].
  f_equal. apply IH.
Qed.




Lemma assign_fields_errors (fields : list field) : forall buf data e,
  assign_fields fields (struct_items (build_format_string fields) buf) data = Raise e ->
  e = UnicodeDecodeError.
Proof.
  induction fields as [|[[name ty] size] fields IH]; intros buf data e; [discriminate|].
  destruct ty.
  - destruct size as [|[|[|[|[|?]]]]];
      cbn [build_format_string map field_fmt struct_items assign_fields];
      apply IH.
  - cbn [build_format_string map field_fmt struct_items assign_fields].
    unfold utf8_decode.
    destruct (utf8_valid _); cbn [res_bind]; [apply IH | congruence].
Qed.

(** X3: [Sdb.unpack] raises [struct.error] exactly when the buffer does
    not have the required length, and raises nothing else than that and
    [UnicodeDecodeError]. *)
Theorem Sdb_unpack_errors (fields : list field) (structure : list byte) :
  (Sdb_unpack fields structure = Raise struct_error
   <-> length structure <> required_length fields)
  /\ (forall e, Sdb_unpack fields structure = Raise e ->
        e = struct_error \/ e = UnicodeDecodeError).
Proof.
  unfold Sdb_unpack, Sdb_unpack_into, struct_unpack. fold (required_length fields).
  pose proof (assign_fields_errors fields structure []) as H.
  destruct (Nat.eqb_spec (length structure) (required_length fields)) as [E|E];
    cbn [res_bind].
  - destruct (assign_fields _ _ _) as [d|e].
    + split; [split; [discriminate | contradiction] | discriminate].
    + specialize (H e eq_refl). subst e.
      split; [split; [discriminate | contradiction]|].
      intros e [= <-]. right. reflexivity.
  - split; [split; [intros _; exact E | reflexivity]|].
    intros e [= <-]. left. reflexivity.
Qed.



(** ** Text fields *)

Lemma strip_nul_no_nul (b : list byte) :
  Forall (fun c => byte_val c <> 0) (strip_nul b).
Proof.
  apply Forall_forall. intros c Hc. unfold strip_nul in Hc.
  apply list_elem_of_filter in Hc. tauto.
Qed.

Lemma strip_nul_sub (P : byte -> Prop) (b : list byte) :
  Forall P b -> Forall P (strip_nul b).
Proof.
  rewrite !Forall_forall. intros H c Hc. apply H.
  unfold strip_nul in Hc.
  apply list_elem_of_filter in Hc. tauto.
Qed.

(** [rstrip] cuts a run of whitespace off the end. *)
Lemma rstrip_split (b : list byte) :
  exists t, b = rstrip b ++ t /\ Forall (fun c => is_space c = true) t.
Proof.
  induction b as [|c b (t & Hb & Ht)]; [exists []; split; [reflexivity | constructor]|].
  simpl. destruct (rstrip b) as [|c' r] eqn:E.
  - destruct (is_space c) eqn:Hc.
    + exists (c :: t). simpl in Hb. subst b. split; [reflexivity|].
      constructor; assumption.
    + exists t. simpl in *. subst b. split; [reflexivity | assumption].
  - exists t. split; [|assumption]. rewrite Hb at 1. reflexivity.
Qed.

Lemma rstrip_last (b l : list byte) (c : byte) :
  rstrip b = l ++ [c] -> is_space c = false.
Proof.
  revert l. induction b as [|c0 b IH]; intros l; simpl.
  { destruct l; discriminate. }
  destruct (rstrip b) as [|c' r] eqn:E.
  - destruct (is_space c0) eqn:Hc; [destruct l; discriminate|].
    destruct l as [|? [|? ?]]; intros [= <-]; try discriminate. exact Hc.
  - destruct l as [|x l]; [discriminate|].
    intros [= <- H]. apply (IH l). exact H.
Qed.

Lemma utf8_valid_ascii (l : list Z) :
  Forall (fun z => z <= 0x7f) l -> utf8_valid l = true.
Proof.
  induction 1 as [|z l Hz _ IH]; [reflexivity|].
  simpl. apply Z.leb_le in Hz. rewrite Hz. exact IH.
Qed.

(** X5: a fixed-width text field of ASCII bytes always decodes; the text is
    the field with every zero byte removed, also the embedded ones, and then
    the trailing ASCII whitespace cut off, so it holds no zero byte and does
    not end in whitespace. *)
Theorem unpack_text_field_ascii (name : string) (size : nat) (b : list byte) :
  length b = size ->
  Forall (fun c => byte_val c <= 0x7f) b ->
  exists s,
    Sdb_unpack [(name, str, size)] b = Ok [(name, VStr s)]
    /\ list_byte_of_string s = rstrip (strip_nul b)
    /\ Forall (fun c => byte_val c <> 0) (list_byte_of_string s)
    /\ (forall l c, list_byte_of_string s = l ++ [c] -> is_space c = false)
    /\ (exists t, strip_nul b = list_byte_of_string s ++ t
                  /\ Forall (fun c => is_space c = true) t).
Proof.
  intros Hlen Hascii.
  exists (string_of_list_byte (rstrip (strip_nul b))).
  rewrite list_byte_of_string_of_list_byte.
  destruct (rstrip_split (strip_nul b)) as (t & Ht & Hsp).
  assert (Hsub : forall P : byte -> Prop,
             Forall P (strip_nul b) -> Forall P (rstrip (strip_nul b))).
  { intros P HP. rewrite Ht in HP. apply Forall_app in HP. tauto. }
  split; [|split; [reflexivity|split; [|split]]].
  - unfold Sdb_unpack, Sdb_unpack_into, struct_unpack. simpl.
    rewrite Nat.add_0_r, Hlen, Nat.eqb_refl. simpl.
    rewrite <- Hlen, take_ge by lia. unfold utf8_decode.
    rewrite utf8_valid_ascii; [reflexivity|].
    apply Forall_fmap. apply (Hsub (fun c => byte_val c <= 0x7f)).
    apply strip_nul_sub, Hascii.
  - apply Hsub, strip_nul_no_nul.
  - intros l c. apply rstrip_last.
  - exists t. split; assumption.
Qed.

Lemma unpack_text_field_ascii_witness :
  exists s, Sdb_unpack [("site", str, 6%nat)] [x53; x00; x49; x20; x00; x00]
            = Ok [("site", VStr s)]
            /\ list_byte_of_string s = rstrip (strip_nul [x53; x00; x49; x20; x00; x00]).
Proof.
  destruct (unpack_text_field_ascii "site" 6 [x53; x00; x49; x20; x00; x00])
    as (s & H1 & H2 & _).
  - reflexivity.
  - repeat (constructor; [vm_compute; discriminate|]). constructor.
  - exists s. split; assumption.
Defined.

(** ** The user-data mapping *)

Lemma mappings_lookup (n : Z) :
  (0 <= n <= 5 -> is_Some (mappings !! n))
  /\ (mappings !! n = None <-> n < 0 \/ 5 < n).
Proof.
  assert (H1 : 0 <= n <= 5 -> is_Some (mappings !! n)).
  { intros H.
    assert (Hc : n = 0 \/ n = 1 \/ n = 2 \/ n = 3 \/ n = 4 \/ n = 5) by lia.
    destruct Hc as [-> | [-> | [-> | [-> | [-> | ->]]]]]; vm_compute; eauto. }
  split; [exact H1|]. split.
  - intros Hn. destruct (Z_lt_le_dec n 0); [lia|].
    destruct (Z_lt_le_dec 5 n); [lia|].
    destruct H1 as [x Hx]; [lia | congruence].
  - intros Hn. destruct (mappings !! n) eqn:E; [|reflexivity].
    apply elem_of_list_to_map_2 in E.
    repeat (apply elem_of_cons in E as [E|E]; [injection E as -> _; lia|]).
    apply elem_of_nil in E. contradiction.
Qed.

(** X6: a user-data-mapping sub-record decodes when each of its four bytes
    is an index from 0 to 5, the four meanings being added after the four
    indices; otherwise decoding raises [KeyError] on the first byte that is
    not. *)
Theorem unpack_user_data_mapping_indices (a b c d : byte) :
  match find (fun x => 5 <? byte_val x) [a; b; c; d] with
  | Some x => unpack SSSUserDataMappingTest [a; b; c; d] = Raise (KeyError (byte_val x))
  | None =>
      exists ma mb mc md,
        mappings !! byte_val a = Some ma /\ mappings !! byte_val b = Some mb
        /\ mappings !! byte_val c = Some mc /\ mappings !! byte_val d = Some md
        /\ unpack SSSUserDataMappingTest [a; b; c; d] =
           Ok [("mapping1", VInt (byte_val a)); ("mapping2", VInt (byte_val b));
               ("mapping3", VInt (byte_val c)); ("mapping4", VInt (byte_val d));
               ("meaning1", VStr ma); ("meaning2", VStr mb);
               ("meaning3", VStr mc); ("meaning4", VStr md)]
  end.
Proof.
  assert (Hup : unpack SSSUserDataMappingTest [a; b; c; d] =
    match mappings !! byte_val a with
    | None => Raise (KeyError (byte_val a))
    | Some ma =>
      match mappings !! byte_val b with
      | None => Raise (KeyError (byte_val b))
      | Some mb =>
        match mappings !! byte_val c with
        | None => Raise (KeyError (byte_val c))
        | Some mc =>
          match mappings !! byte_val d with
          | None => Raise (KeyError (byte_val d))
          | Some md =>
              Ok [("mapping1", VInt (byte_val a)); ("mapping2", VInt (byte_val b));
                  ("mapping3", VInt (byte_val c)); ("mapping4", VInt (byte_val d));
                  ("meaning1", VStr ma); ("meaning2", VStr mb);
                  ("meaning3", VStr mc); ("meaning4", VStr md)]
          end
        end
      end
    end).
  { reflexivity. }
  rewrite Hup. clear Hup. simpl.
  pose proof (byte_val_range a). pose proof (byte_val_range b).
  pose proof (byte_val_range c). pose proof (byte_val_range d).
  destruct (Z.ltb_spec 5 (byte_val a)) as [Ha|Ha].
  { rewrite (proj2 (proj2 (mappings_lookup _))) by lia. reflexivity. }
  destruct (proj1 (mappings_lookup (byte_val a))) as [ma ->]; [lia|].
  destruct (Z.ltb_spec 5 (byte_val b)) as [Hb|Hb].
  { rewrite (proj2 (proj2 (mappings_lookup _))) by lia. reflexivity. }
  destruct (proj1 (mappings_lookup (byte_val b))) as [mb ->]; [lia|].
  destruct (Z.ltb_spec 5 (byte_val c)) as [Hc|Hc].
  { rewrite (proj2 (proj2 (mappings_lookup _))) by lia. reflexivity. }
  destruct (proj1 (mappings_lookup (byte_val c))) as [mc ->]; [lia|].
  destruct (Z.ltb_spec 5 (byte_val d)) as [Hd|Hd].
  { rewrite (proj2 (proj2 (mappings_lookup _))) by lia. reflexivity. }
  destruct (proj1 (mappings_lookup (byte_val d))) as [md ->]; [lia|].
  eauto 10.
Qed.

(** ** The frame reader on whole records *)

Lemma py_sum_from (payload : list byte) : forall acc,
  fold_left (fun a b => a + byte_val b) payload acc = acc + py_sum payload.
Proof.
  unfold py_sum. induction payload as [|b payload IH]; intros acc;
    cbn [fold_left]; [lia|].
  rewrite (IH (acc + byte_val b)), (IH (0 + byte_val b)). lia.
Qed.

Lemma py_sum_cons (b : byte) (payload : list byte) :
  py_sum (b :: payload) = byte_val b + py_sum payload.
Proof. unfold py_sum at 1. cbn [fold_left]. rewrite py_sum_from. lia. Qed.

Lemma py_sum_app (p q : list byte) : py_sum (p ++ q) = py_sum p + py_sum q.
Proof.
  induction p as [|b p IH]; [reflexivity|].
  simpl. rewrite !py_sum_cons, IH. lia.
Qed.

Lemma py_sum_Permutation (p q : list byte) :
  Permutation p q -> py_sum p = py_sum q.
Proof.
  induction 1; rewrite ?py_sum_cons; try lia; congruence.
Qed.

(** X7: a record whose header declares the length of the payload that
    follows, not zero, and the sum of its bytes modulo 65536, is emitted
    whole, and reading goes on right behind it. *)
Theorem records_gen_well_framed (b0 b1 b2 b3 b4 b5 : byte)
    (payload rest : list byte) :
  let header := [b0; b1; b2; b3; b4; b5] in
  payload <> [] ->
  header_length header = Z.of_nat (length payload) ->
  header_checksum header = py_sum payload mod 65536 ->
  records_gen (header ++ payload ++ rest) = Yield payload rest.
Proof.
  intros header Hne Hlen Hsum.
  pose proof (records_gen_header b0 b1 b2 b3 b4 b5 (payload ++ rest)) as Hg.
  cbv zeta in Hg. fold header in Hg. rewrite Hg, Hlen, Nat2Z.id.
  rewrite take_app_length, drop_app_length, checksum_payload_mod.
  destruct (Z.eqb_spec (Z.of_nat (length payload)) 0) as [E|_].
  { destruct payload; [congruence | simpl in E; lia]. }
  apply Z.eqb_eq in Hsum. rewrite Hsum. reflexivity.
Qed.

Lemma records_gen_well_framed_witness :
  records_gen ([x00; x02; x00; x00; x01; xef] ++ [xf0; xff] ++ [x00; x01])
  = Yield [xf0; xff] [x00; x01].
Proof.
  apply (records_gen_well_framed x00 x02 x00 x00 x01 xef [xf0; xff] [x00; x01]);
    [discriminate | reflexivity | reflexivity].
Defined.

(** X8: the checksum does not see the order of the bytes: when the reader
    emits a record, it also emits the record with the same header and the
    payload bytes in any other order. *)
Theorem checksum_blind_to_order (b0 b1 b2 b3 b4 b5 : byte)
    (payload payload' rest : list byte) :
  let header := [b0; b1; b2; b3; b4; b5] in
  Permutation payload payload' ->
  header_length header = Z.of_nat (length payload) ->
  records_gen (header ++ payload ++ rest) = Yield payload rest ->
  checksum_payload payload' = checksum_payload payload
  /\ records_gen (header ++ payload' ++ rest) = Yield payload' rest.
Proof.
  intros header Hperm Hlen Hy.
  assert (Hck : checksum_payload payload' = checksum_payload payload).
  { unfold checksum_payload. rewrite (py_sum_Permutation _ _ Hperm). reflexivity. }
  split; [exact Hck|].
  pose proof (records_gen_header b0 b1 b2 b3 b4 b5 (payload ++ rest)) as Hg.
  cbv zeta in Hg. fold header in Hg. rewrite Hy, Hlen, Nat2Z.id in Hg.
  rewrite take_app_length, drop_app_length in Hg.
  pose proof (records_gen_header b0 b1 b2 b3 b4 b5 (payload' ++ rest)) as Hg'.
  cbv zeta in Hg'. fold header in Hg'.
  rewrite Hlen, Nat2Z.id, (Permutation_length Hperm) in Hg'.
  rewrite take_app_length, drop_app_length, Hck in Hg'.
  rewrite <- (Permutation_length Hperm) in Hg'.
  destruct (Z.of_nat (length payload) =? 0) eqn:E0.
  { (* a zero length: both payloads are empty *)
    apply Z.eqb_eq in E0.
    destruct payload; [|simpl in E0; lia].
    apply Permutation_nil_l in Hperm. subst payload'. exact Hy. }
  destruct (header_checksum header =? checksum_payload payload).
  - exact Hg'.
  - (* the record was skipped and the same payload emitted later: the
       reader then has less than the payload left, which is impossible *)
    symmetry in Hg. apply records_gen_shrinks in Hg. lia.
Qed.

Lemma checksum_blind_to_order_witness :
  records_gen ([x00; x02; x00; x00; x01; xef] ++ [xff; xf0] ++ []) = Yield [xff; xf0] [].
Proof.
  refine (proj2 (checksum_blind_to_order x00 x02 x00 x00 x01 xef
                   [xf0; xff] [xff; xf0] [] _ _ _)).
  - apply perm_swap.
  - reflexivity.
  - reflexivity.
Defined.

(** What the reader skips: whole records, with an empty payload or a
    payload that fails its checksum. *)
Lemma records_gen_fuel_sound fuel : forall filehandle,
  match records_gen_fuel fuel filehandle with
  | Yield payload filehandle' =>
      exists skipped header,
        filehandle = skipped ++ header ++ payload ++ filehandle'
        /\ length header = 6%nat
        /\ header_length header <> 0
        /\ header_checksum header = checksum_payload payload
        /\ (length payload <= Z.to_nat (header_length header))%nat
        /\ ((length payload < Z.to_nat (header_length header))%nat ->
            filehandle' = [])
  | StopIteration => True
  | GenRaise e =>
      e = struct_error
      /\ exists skipped partial,
           filehandle = skipped ++ partial /\ (0 < length partial < 6)%nat
  end.
Proof.
  induction fuel as [|fuel IH]; intros fh; [exact I|].
  rewrite records_gen_fuel_body. unfold records_gen_body.
  destruct fh as [|b fh]; [exact I|].
  destruct (Nat.ltb_spec (length (b :: fh)) 6) as [Hlt|Hge].
  { split; [reflexivity|]. exists [], (b :: fh). split; [reflexivity|].
    simpl in *. lia. }
  cbv zeta.
  set (header := take 6 (b :: fh)). set (fh1 := drop 6 (b :: fh)).
  assert (Hfh : b :: fh = header ++ fh1) by (symmetry; apply take_drop).
  assert (Hh : length header = 6%nat).
  { unfold header. rewrite length_take. lia. }
  destruct (Z.eqb_spec (header_length header) 0) as [E0|E0].
  { specialize (IH fh1). destruct (records_gen_fuel fuel fh1) as [p fh'| |e].
    - destruct IH as (sk & h & Hs & Hrest). exists (header ++ sk), h.
      split; [|exact Hrest]. rewrite Hfh, Hs, <- app_assoc. reflexivity.
    - exact I.
    - destruct IH as (-> & sk & part & Hs & Hp). split; [reflexivity|].
      exists (header ++ sk), part. split; [|exact Hp].
      rewrite Hfh, Hs, <- app_assoc. reflexivity. }
  set (n := Z.to_nat (header_length header)).
  destruct (Z.eqb_spec (header_checksum header) (checksum_payload (take n fh1)))
    as [Ec|Ec].
  { exists [], header. simpl. rewrite take_drop.
    split; [exact Hfh|]. split; [exact Hh|]. split; [exact E0|].
    split; [exact Ec|]. split; [rewrite length_take; lia|].
    rewrite length_take. intros Hshort. apply drop_ge. lia. }
  specialize (IH (drop n fh1)).
  destruct (records_gen_fuel fuel (drop n fh1)) as [p fh'| |e].
  - destruct IH as (sk & h & Hs & Hrest). exists (header ++ take n fh1 ++ sk), h.
    split; [|exact Hrest].
    rewrite Hfh, <- (take_drop n fh1) at 1. rewrite Hs, <- !app_assoc. reflexivity.
  - exact I.
  - destruct IH as (-> & sk & part & Hs & Hp). split; [reflexivity|].
    exists (header ++ take n fh1 ++ sk), part. split; [|exact Hp].
    rewrite Hfh, <- (take_drop n fh1) at 1. rewrite Hs, <- !app_assoc. reflexivity.
Qed.

(** X9: every payload the reader emits stands in the stream behind a
    six-byte header that declares a length other than zero and the
    payload's checksum; the payload is shorter than declared only where the
    stream ends. *)
Theorem records_gen_sound (filehandle payload filehandle' : list byte) :
  records_gen filehandle = Yield payload filehandle' ->
  exists skipped header,
    filehandle = skipped ++ header ++ payload ++ filehandle'
    /\ length header = 6%nat
    /\ header_length header <> 0
    /\ header_checksum header = checksum_payload payload
    /\ (length payload <= Z.to_nat (header_length header))%nat
    /\ ((length payload < Z.to_nat (header_length header))%nat ->
        filehandle' = []).
Proof.
  intros H. pose proof (records_gen_fuel_sound (S (length filehandle)) filehandle) as Hs.
  unfold records_gen in H. rewrite H in Hs. exact Hs.
Qed.

Lemma records_gen_sound_witness :
  exists skipped header,
    [x00; x02; x00; x00; x01; xef; xf0; xff] = skipped ++ header ++ [xf0; xff] ++ []
    /\ length header = 6%nat.
Proof.
  destruct (records_gen_sound [x00; x02; x00; x00; x01; xef; xf0; xff] [xf0; xff] []
              eq_refl) as (sk & h & H1 & H2 & _).
  exists sk, h. split; assumption.
Defined.



(** ** The walker *)

Lemma known_codes_all : all_from 256 0 known_codes_check = true.
Proof. vm_compute. reflexivity. Qed.

(** X11: the type codes the walker knows.  In a record not yet upgraded
    these are the version-1 codes and the two upgrading codes 0x11 and 0x12;
    after the upgrade 0xF9 is known as well.  Every other code has no entry
    in the active table. *)
Theorem known_type_codes (b : byte) :
  let code := byte_val b in
  (is_Some (active_entry 1 TESTS_VERSION_1 code)
   <-> Z_in code codes_version_1 = true)
  /\ (is_Some (active_entry 2 merged_tests code)
      <-> Z_in code codes_version_2 = true).
Proof.
  intros code. pose proof (byte_val_range b) as Hb. fold code in Hb.
  pose proof (all_from_spec _ _ _ code known_codes_all ltac:(simpl; lia)) as H.
  unfold known_codes_check in H. apply andb_true_iff in H as [H1 H2].
  apply Bool.eqb_prop in H1, H2. rewrite <- H1, <- H2.
  split; symmetry; apply bool_decide_eq_true.
Qed.

Lemma world_eta (w : world) :
  World (Statics (test_id (static w) + 0) (user_notes (static w))
                 (user_counts (static w))) (workbook w) = w.
Proof. destruct w as [[t n c] wb]. simpl. rewrite Z.add_0_r. reflexivity. Qed.


(** One turn of the walker, once the class of the type code is known. *)
Lemma parse_step_entry (record_id : Z) (s : walker) (w : world)
    (b : byte) (rest : list byte) (label : string) (cls : sss_class) :
  payload s = b :: rest ->
  active_entry (version s) (tests s) (byte_val b) = Some (label, cls) ->
  parse_step record_id s w =
  match unpack cls (take (class_len cls) rest) with
  | Raise e => (Raise e, w)
  | Ok current_test =>
      match report_record record_id current_test (byte_val b) (test_id (static w)) w with
      | (Raise e, w1) => (Raise e, w1)
      | (Ok n, w1) =>
          (Ok (Walker (drop (class_len cls) rest) (Some (byte_val b))
                 (upgrade_check (version s) (tests s) (byte_val b)).1
                 (upgrade_check (version s) (tests s) (byte_val b)).2),
           World (Statics (test_id (static w1) + n) (user_notes (static w1))
                          (user_counts (static w1))) (workbook w1))
      end
  end.
Proof.
  intros Hp Hentry. unfold parse_step. rewrite Hp. unfold active_entry in Hentry.
  destruct (upgrade_check _ _ _) as [v1 t1]. cbn [fst snd] in *. rewrite Hentry.
  unfold mbind, M_bind, lift, get_static, set_static, mret, M_ret.
  destruct (unpack cls _); [|reflexivity].
  destruct (report_record _ _ _ _ _) as [[n|e] w1]; reflexivity.
Qed.

Lemma sentinel_entry (s : walker) :
  walker_ok s ->
  active_entry (version s) (tests s) 0xff = Some ("End of Record (FF)", SSSNoDataTest).
Proof. intros [[-> ->] | [-> ->]]; vm_compute; reflexivity. Qed.

Lemma report_record_sentinel (record_id : Z) (current_test : odict) (tid : Z) (w : world) :
  report_record record_id current_test (byte_val xff) tid w = (Ok 0, w).
Proof. reflexivity. Qed.

(** X12: the end-of-record sentinel stops the walker, writes nothing and
    moves no counter; whatever follows it in the payload is not looked at. *)
Theorem walk_sentinel (record_id : Z) (s : walker) (w : world) (rest : list byte) :
  walker_ok s ->
  payload s = xff :: rest ->
  test_type s <> Some 0xff ->
  walk record_id s w = (Ok tt, w).
Proof.
  intros Hok Hp Ht.
  assert (Hc : loop_cond s = true).
  { unfold loop_cond. rewrite Hp. cbn [length Nat.eqb negb andb].
    rewrite bool_decide_eq_false_2 by exact Ht. reflexivity. }
  pose proof (parse_step_entry record_id s w xff rest _ _ Hp (sentinel_entry s Hok))
    as Hstep.
  change (unpack SSSNoDataTest (take (class_len SSSNoDataTest) rest)) with (@Ok odict [])
    in Hstep.
  cbv beta iota in Hstep. rewrite report_record_sentinel, world_eta in Hstep.
  rewrite walk_unfold, Hc. unfold mbind, M_bind. rewrite Hstep.
  rewrite walk_unfold. unfold loop_cond. cbn [test_type].
  rewrite bool_decide_eq_true_2 by reflexivity.
  rewrite andb_false_r. reflexivity.
Qed.

Lemma walk_sentinel_witness :
  parse_record [xff; xf0; x03] 1 (World initial_statics [])
  = (Ok tt, World initial_statics []).
Proof.
  apply (walk_sentinel 1 (initial_walker [xff; xf0; x03]) _ [xf0; x03]).
  - left. split; reflexivity.
  - reflexivity.
  - discriminate.
Defined.

(** X13: a sub-record with fewer bytes left in the payload than its class
    requires ends the walk with [struct.error]; nothing is written for it. *)
Theorem walk_truncated_subrecord (record_id : Z) (s : walker) (w : world)
    (b : byte) (rest : list byte) (label : string) (cls : sss_class) :
  loop_cond s = true ->
  payload s = b :: rest ->
  active_entry (version s) (tests s) (byte_val b) = Some (label, cls) ->
  (length rest < class_len cls)%nat ->
  parse_step record_id s w = (Raise struct_error, w)
  /\ walk record_id s w = (Raise struct_error, w).
Proof.
  intros Hc Hp Hentry Hlen.
  assert (Hu : unpack cls (take (class_len cls) rest) = Raise struct_error).
  { unfold unpack.
    rewrite (proj2 (proj1 (Sdb_unpack_errors (fields cls) (take (class_len cls) rest))));
      [reflexivity|].
    rewrite length_take. unfold class_len in Hlen. lia. }
  assert (Hstep : parse_step record_id s w = (Raise struct_error, w)).
  { rewrite (parse_step_entry _ _ _ _ _ _ _ Hp Hentry), Hu. reflexivity. }
  split; [exact Hstep|].
  rewrite walk_unfold, Hc. unfold mbind, M_bind. rewrite Hstep. reflexivity.
Qed.

Lemma walk_truncated_subrecord_witness :
  parse_record [xf2; x40] 1 (World initial_statics [])
  = (Raise struct_error, World initial_statics []).
Proof.
  refine (proj2 (walk_truncated_subrecord 1 (initial_walker [xf2; x40]) _ xf2 [x40]
                   "Earth Resistance (F2)" SSSEarthResistanceTest _ _ _ _));
    [reflexivity | reflexivity | reflexivity | vm_compute; lia].
Defined.

(** X14: a decoded sub-record takes its type code and exactly the bytes of
    its class off the payload. *)
Theorem parse_step_advances (record_id : Z) (s : walker) (w : world)
    (s' : walker) (w' : world) :
  parse_step record_id s w = (Ok s', w') ->
  exists b rest label cls,
    payload s = b :: rest
    /\ active_entry (version s) (tests s) (byte_val b) = Some (label, cls)
    /\ (class_len cls <= length rest)%nat
    /\ payload s' = drop (class_len cls) rest
    /\ length (payload s') = (length (payload s) - 1 - class_len cls)%nat.
Proof.
  unfold parse_step, active_entry.
  destruct (payload s) as [|b rest]; [discriminate|].
  destruct (upgrade_check _ _ _) as [v1 t1] eqn:Eu.
  destruct (t1 !! byte_val b) as [[label cls]|] eqn:E; [|discriminate].
  unfold mbind, M_bind, lift, get_static, set_static, mret, M_ret.
  destruct (unpack cls _) as [d|e] eqn:Hu; [|discriminate].
  destruct (report_record _ _ _ _ _) as [[n|e] w1]; [|discriminate].
  intros [= <- _]. exists b, rest, label, cls. simpl.
  assert (Hlen : (class_len cls <= length rest)%nat).
  { destruct (Nat.le_gt_cases (class_len cls) (length rest)) as [H|H]; [exact H|].
    exfalso. unfold unpack in Hu.
    rewrite (proj2 (proj1 (Sdb_unpack_errors (fields cls) (take (class_len cls) rest))))
      in Hu; [discriminate|].
    rewrite length_take. unfold class_len in H. lia. }
  split; [reflexivity|]. split; [rewrite Eu; exact E|]. split; [exact Hlen|].
  split; [reflexivity|]. cbn [payload length]. rewrite length_drop. lia.
Qed.

Lemma parse_step_advances_witness :
  exists b rest label cls,
    payload (initial_walker [xf2; x40; x64; xff]) = b :: rest
    /\ active_entry 1 TESTS_VERSION_1 (byte_val b) = Some (label, cls)
    /\ (class_len cls <= length rest)%nat.
Proof.
  destruct (parse_step_advances 1 (initial_walker [xf2; x40; x64; xff])
              (World initial_statics [])
              (Walker [xff] (Some 0xf2) 1 TESTS_VERSION_1)
              (World (Statics 2 [VInt 0; VInt 1; VInt 2; VInt 3] [0; 0; 0; 0; 0; 0])
                 [write_row 1 1 0 [Cell (VInt 1); Cell (VInt 1); Cell (VInt 0xf2);
                                   Cell (VFloat 10)]]))
    as (b & rest & label & cls & H1 & H2 & H3 & _).
  { vm_compute. reflexivity. }
  exists b, rest, label, cls. repeat split; assumption.
Defined.

(** X16: for a sub-record whose type code is 0x10 or lies in 0xF0..0xFA,
    [report_record] cannot fail: it writes one row on the test sheet, at
    the row of the test identifier, holding the test identifier, the record
    identifier, the type code and the decoded values, touches no function
    attribute and reports one test written. *)
Theorem report_record_test_row (record_id : Z) (current_test : odict)
    (code tid : Z) (w : world) :
  code = 0x10 \/ 0xf0 <= code <= 0xfa ->
  report_record record_id current_test code tid w =
  (Ok 1,
   World (static w)
     (workbook w ++
      [write_row test_sheet tid 0
         (Cell (VInt tid) :: Cell (VInt record_id) :: Cell (VInt code)
          :: map Cell (od_values current_test))])).
Proof.
  intros Hcode. apply is_test_kind_spec in Hcode.
  unfold report_record.
  destruct (Z_in code _) eqn:Hin.
  { apply Z_in_not_test_kind in Hin. congruence. }
  rewrite Hcode. reflexivity.
Qed.

Lemma report_record_test_row_witness :
  report_record 3 [("resistance", VInt 7)] 0xf2 5 (World initial_statics [])
  = (Ok 1, World initial_statics
             [write_row test_sheet 5 0
                [Cell (VInt 5); Cell (VInt 3); Cell (VInt 0xf2); Cell (VInt 7)]]).
Proof.
  apply (report_record_test_row 3 [("resistance", VInt 7)] 0xf2 5
           (World initial_statics [])).
  right. lia.
Defined.

(** ** Decoding only adds *)

Section Respects.
Variable R : world -> world -> Prop.
Hypothesis R_refl : forall w, R w w.
Hypothesis R_trans : forall a b c, R a b -> R b c -> R a c.

Lemma respects_ret {A} (a : A) : respects R (mret a).
Proof. intros w r w' [= _ <-]. apply R_refl. Qed.

Lemma respects_raise {A} (e : exn) : respects R (raise (A := A) e).
Proof. intros w r w' [= _ <-]. apply R_refl. Qed.

Lemma respects_lift {A} (x : res A) : respects R (lift x).
Proof. intros w r w' [= _ <-]. apply R_refl. Qed.

Lemma respects_bind {A B} (m : M A) (k : A -> M B) :
  respects R m -> (forall a, respects R (k a)) -> respects R (m ≫= k).
Proof.
  intros Hm Hk w r w'. unfold mbind, M_bind.
  destruct (m w) as [[a|e] w1] eqn:E.
  - intros H. apply Hk in H. apply Hm in E. eapply R_trans; eassumption.
  - intros [= _ <-]. eapply Hm; eassumption.
Qed.
End Respects.

Lemma grows_refl (w : world) : grows w w.
Proof. split; [exists []; rewrite app_nil_r; reflexivity | split; [lia | reflexivity]]. Qed.

Lemma grows_trans (a b c : world) : grows a b -> grows b c -> grows a c.
Proof.
  intros ([n1 H1] & H2 & H3) ([n2 H4] & H5 & H6).
  split; [|split; [lia | congruence]].
  exists (n1 ++ n2). rewrite H4, H1, app_assoc. reflexivity.
Qed.

Lemma grows_emit (c : wcall) : respects grows (emit c).
Proof.
  intros w r w' [= _ <-].
  split; [eexists; reflexivity | split; [simpl; lia | reflexivity]].
Qed.

Create HintDb grows.
#[local] Hint Resolve grows_refl grows_trans grows_emit : grows.
#[local] Hint Extern 1 (respects grows (mret _)) =>
  apply respects_ret, grows_refl : grows.
#[local] Hint Extern 1 (respects grows (raise _)) =>
  apply respects_raise, grows_refl : grows.
#[local] Hint Extern 1 (respects grows (lift _)) =>
  apply respects_lift, grows_refl : grows.
#[local] Hint Extern 2 (respects grows (_ ≫= _)) =>
  apply (respects_bind grows grows_trans) : grows.

Lemma grows_user_data_loop record_id data_values : forall indx,
  respects grows (user_data_loop record_id indx data_values).
Proof.
  induction data_values as [|v rest IH]; intros indx; simpl; [auto with grows|].
  apply (respects_bind grows grows_trans); [|intros _; apply IH].
  destruct (py_bool v); [|auto with grows].
  intros w r w'. unfold mbind, M_bind, get_static, lift, set_static, emit.
  repeat (case_match; simplify_eq; simpl in * ); intros; simplify_eq;
    try apply grows_refl;
    (split; [eexists; simpl; try reflexivity; symmetry; apply app_nil_r
            | split; [simpl; lia | simpl; rewrite ?length_insert; reflexivity]]).
Qed.

Lemma grows_report_record record_id current_test code tid :
  respects grows (report_record record_id current_test code tid).
Proof.
  unfold report_record.
  destruct (Z_in code _).
  { apply (respects_bind grows grows_trans); [|intros _; auto 6 with grows].
    destruct (code =? 0xfe).
    { repeat (case_match; auto with grows). }
    destruct (code =? 0xe0).
    { intros w r w' [= _ <-].
      split; [eexists; reflexivity | split; [simpl; lia | reflexivity]]. }
    destruct (code =? 0xe1).
    { auto 6 with grows. }
    repeat (case_match; auto with grows). }
  destruct (is_test_kind code).
  { auto 6 with grows. }
  destruct (code =? 0xfb); [|auto with grows].
  apply (respects_bind grows grows_trans);
    [apply grows_user_data_loop | auto with grows].
Qed.

Lemma grows_parse_step record_id s : respects grows (parse_step record_id s).
Proof.
  intros w r w'. unfold parse_step.
  destruct (payload s) as [|b rest]; [intros [= _ <-]; apply grows_refl|].
  destruct (upgrade_check _ _ _) as [v1 t1].
  destruct (t1 !! byte_val b) as [[label cls]|]; [|intros [= _ <-]; apply grows_refl].
  unfold mbind, M_bind, lift, get_static, set_static, mret, M_ret.
  destruct (unpack cls _); [|intros [= _ <-]; apply grows_refl].
  destruct (report_record _ _ _ _ _) as [[n|e] w1] eqn:Hr.
  - intros [= _ <-].
    pose proof (grows_report_record _ _ _ _ _ _ _ Hr) as (Hw & Ht & Hc).
    apply report_record_written in Hr.
    split; [exact Hw|]. split; [|exact Hc].
    simpl. destruct (is_test_kind _); lia.
  - intros [= _ <-]. eapply grows_report_record; eassumption.
Qed.

Lemma grows_walk_fuel fuel : forall record_id s,
  respects grows (walk_fuel fuel record_id s).
Proof.
  induction fuel as [|fuel IH]; intros record_id s; simpl;
    destruct (loop_cond s); auto with grows.
  apply (respects_bind grows grows_trans); [apply grows_parse_step | intros s'; apply IH].
Qed.

Lemma grows_parse_sss_fuel fuel : forall filehandle record_id,
  respects grows (parse_sss_fuel fuel filehandle record_id).
Proof.
  induction fuel as [|fuel IH]; intros fh record_id; simpl; [auto with grows|].
  destruct (records_gen fh) as [p fh'| |e]; auto with grows.
  apply (respects_bind grows grows_trans); [apply grows_walk_fuel | intros _; apply IH].
Qed.

(** X17: whatever the stream and however decoding ends, [parse_sss] only
    adds calls to the workbook behind those already made, never lowers the
    test counter and keeps the number of row counters. *)
Theorem parse_sss_grows (filehandle : list byte) (w : world) :
  grows w (parse_sss filehandle w).2.
Proof.
  destruct (parse_sss filehandle w) as [r w'] eqn:E.
  exact (grows_parse_sss_fuel _ _ _ _ _ _ E).
Qed.

(** ** What unpack can raise *)

Lemma length_2_inv {A} (l : list A) :
  length l = 2%nat -> exists a b, l = [a; b].
Proof. destruct l as [|a [|b [|]]]; try discriminate. eauto. Qed.

Lemma fixup_plain (c : sss_class) (d : odict) :
  c = SSSRecordHeader \/ c = SSSVisualTest \/ c = SSSNoDataTest
  \/ c = SSSRetestTest \/ c = SSSSoftwareVersionTest \/ c = SSSUserDataTest ->
  fixup c d = Ok d.
Proof. intros [-> | [-> | [-> | [-> | [-> | ->]]]]]; reflexivity. Qed.

(** X18: [SSS.unpack] of any class raises [struct.error] exactly when the
    buffer is not as long as the class requires; with the right length it
    can fail only on text that is not UTF-8 or, for the user-data mapping,
    with [KeyError] on an index above 5.  A class with a rescaled 16-bit
    field always decodes a buffer of its length. *)
Theorem unpack_outcomes (c : sss_class) (structure : list byte) :
  match unpack c structure with
  | Ok _ => length structure = class_len c
  | Raise e =>
      (e = struct_error /\ length structure <> class_len c)
      \/ (length structure = class_len c
          /\ (e = UnicodeDecodeError
              \/ (c = SSSUserDataMappingTest /\ exists k, e = KeyError k /\ 5 < k)))
  end.
Proof.
  destruct (Nat.eq_dec (length structure) (class_len c)) as [Hlen|Hlen].
  2: { unfold unpack.
       rewrite (proj2 (proj1 (Sdb_unpack_errors (fields c) structure))) by exact Hlen.
       left. split; [reflexivity | exact Hlen]. }
  assert (Hplain : fixup c = Ok ->
    match unpack c structure with
    | Ok _ => length structure = class_len c
    | Raise e =>
        (e = struct_error /\ length structure <> class_len c)
        \/ (length structure = class_len c
            /\ (e = UnicodeDecodeError
                \/ (c = SSSUserDataMappingTest /\ exists k, e = KeyError k /\ 5 < k)))
    end).
  { intros Hf. unfold unpack. rewrite Hf.
    destruct (Sdb_unpack (fields c) structure) as [d|e] eqn:E; [exact Hlen|].
    simpl. right. split; [exact Hlen|]. left.
    destruct (proj2 (Sdb_unpack_errors (fields c) structure) e E) as [-> | ->];
      [|reflexivity].
    apply (proj1 (proj1 (Sdb_unpack_errors _ _))) in E. contradiction. }
  destruct c; try (apply Hplain; reflexivity); clear Hplain.
  - apply length_2_inv in Hlen as (hi & lo & ->).
    destruct (rescale_value_total (be_int [hi; lo])) as [r Hr].
    rewrite (unpack_EarthResistanceTest _ _ _ Hr). reflexivity.
  - apply length_4_inv in Hlen as (a & p & hi & lo & ->).
    destruct (rescale_value_total (be_int [hi; lo])) as [r Hr].
    rewrite (unpack_EarthResistanceTestv2 _ _ _ _ _ Hr). reflexivity.
  - apply length_2_inv in Hlen as (hi & lo & ->).
    destruct (rescale_value_total (be_int [hi; lo])) as [r Hr].
    rewrite (unpack_EarthInsulationTest _ _ _ Hr). reflexivity.
  - apply length_2_inv in Hlen as (hi & lo & ->).
    destruct (rescale_value_total (be_int [hi; lo])) as [r Hr].
    rewrite (unpack_CurrentTest _ _ _ Hr). reflexivity.
  - apply length_3_inv in Hlen as (p & hi & lo & ->).
    destruct (rescale_value_total (be_int [hi; lo])) as [r Hr].
    rewrite (unpack_CurrentTestv2 _ _ _ _ Hr). reflexivity.
  - apply length_3_inv in Hlen as (p & hi & lo & ->).
    destruct (rescale_value_total (be_int [hi; lo])) as [r Hr].
    rewrite (unpack_EarthInsulationTestv2 _ _ _ _ Hr). reflexivity.
  - apply length_4_inv in Hlen as (hi & lo & hi' & lo' & ->).
    destruct (rescale_value_total (be_int [hi; lo])) as [r Hr].
    destruct (rescale_value_total (be_int [hi'; lo'])) as [r' Hr'].
    rewrite (unpack_PowerLeakTest _ _ _ _ _ _ Hr Hr'). reflexivity.
  - apply length_5_inv in Hlen as (p & hi & lo & hi' & lo' & ->).
    destruct (rescale_value_total (be_int [hi; lo])) as [r Hr].
    destruct (rescale_value_total (be_int [hi'; lo'])) as [r' Hr'].
    rewrite (unpack_PowerLeakTestv2 _ _ _ _ _ _ _ Hr Hr'). reflexivity.
  - apply length_2_inv in Hlen as (hi & lo & ->).
    destruct (rescale_value_total (be_int [hi; lo])) as [r Hr].
    rewrite (unpack_ContinuityTest _ _ _ Hr). reflexivity.
  - apply length_3_inv in Hlen as (p & hi & lo & ->).
    destruct (rescale_value_total (be_int [hi; lo])) as [r Hr].
    rewrite (unpack_ContinuityTestv2 _ _ _ _ Hr). reflexivity.
  - apply length_4_inv in Hlen as (a & b & c & d & ->).
    pose proof (unpack_user_data_mapping_indices a b c d) as H.
    destruct (find _ _) as [x|] eqn:Ef.
    + rewrite H. right. split; [reflexivity|]. right. split; [reflexivity|].
      exists (byte_val x). split; [reflexivity|].
      apply find_some in Ef as [_ Hx]. apply Z.ltb_lt. exact Hx.
    + destruct H as (ma & mb & mc & md & _ & _ & _ & _ & ->). reflexivity.
Qed.

(** ** Rescaled numbers *)

Lemma rescale_range_all :
  all_from (Z.to_nat 65536) 0 rescale_range_check = true.
Proof. vm_compute. reflexivity. Qed.

(** X19: a raw 16-bit field below 0x4000 is exposed unchanged, as an
    integer; from 0x4000 on the exposed value is a binary64 number from 0 to
    0.1 * 16383, so that no rescaled field is negative, infinite or not a
    number. *)
Theorem rescale_value_range (v : Z) :
  0 <= v <= 65535 ->
  (v < 0x4000 -> rescale_value v = Ok (VInt v))
  /\ (0x4000 <= v ->
      exists f, rescale_value v = Ok (VFloat f)
                /\ PrimFloat.leb 0 f = true
                /\ PrimFloat.leb f 0x1.9993333333334p+10 = true).
Proof.
  intros Hv.
  pose proof (all_from_spec _ _ _ v rescale_range_all) as H.
  rewrite Z2Nat.id in H by lia. specialize (H ltac:(lia)).
  unfold rescale_range_check in H.
  destruct (rescale_value v) as [[m|f| | | |]|]; try discriminate.
  - apply andb_true_iff in H as [H1 H2]. apply Z.ltb_lt in H1. apply Z.eqb_eq in H2.
    subst m. split; [reflexivity | lia].
  - apply andb_true_iff in H as [H H3]. apply andb_true_iff in H as [H1 H2].
    apply Z.leb_le in H1. split; [lia|]. intros _. exists f. repeat split; assumption.
Qed.

Lemma rescale_value_range_witness :
  exists f, rescale_value 0xffff = Ok (VFloat f)
            /\ PrimFloat.leb 0 f = true
            /\ PrimFloat.leb f 0x1.9993333333334p+10 = true.
Proof.
  apply (proj2 (rescale_value_range 0xffff ltac:(lia))). lia.
Defined.

(** ** The exceptions of a decoding *)















